(** * ml_real_state.py: train/test splitting and the preprocessing steps

    A shallow embedding of [src/ml_real_state.py].  The script's own
    functions ([split_train_test], [test_set_check],
    [split_train_test_by_id], [CombinedAttributesAdder]) are translated
    line by line.  The library calls they are built from (Python slicing
    and [int], pandas positional and boolean-mask indexing, NumPy
    elementwise division and column stacking) are given a small executable
    model each, in the modules [Py], [Pandas] and [Numpy].  The steps the
    script leaves wholly to a library ([pandas.cut], scikit-learn's
    [SimpleImputer], [StandardScaler] and [StratifiedShuffleSplit]) are
    modelled from the spec, and marked so where they are defined.

    Numbers:
    - binary64 values are the Standard Library's executable specification
      of IEEE 754, [spec_float], with its rounding ([Float64]);
    - [split_train_test] takes its ratio as a binary64 value: the product
      [len(data) * test_ratio] is rounded to binary64 before [int]
      truncates it, and [int] raises on an infinite or NaN product;
    - [test_set_check] takes its ratio as the rational the binary64 value
      stands for: [test_ratio * 2 ** 32] is a scaling by a power of two,
      exact in binary64, and Python compares an integer with a float
      exactly;
    - the cells of the array handed to [CombinedAttributesAdder] are of
      any type with a division that may raise: on a float64 array the
      division is IEEE 754 and never raises, on an object array (the
      dtype of [housing.values] at line 230) it is Python's, which raises
      on a zero denominator and on a string;
    - the scaler, which takes a square root, is over the real numbers. *)

From Stdlib Require Import String.
From Stdlib Require Import ZArith QArith Qround List Bool Lia Psatz.
From Stdlib Require Import Permutation Sorted Reals.
From Stdlib Require Import Floats.SpecFloat.
Import ListNotations.

Set Implicit Arguments.

Local Open Scope Z_scope.

(* ================================================================= *)
(** ** An error monad for the calls that can raise *)

Module Err.

Definition bind {A B : Type} (m : option A) (k : A -> option B) : option B :=
  match m with
  | Some a => k a
  | None => None
  end.

(** [mapM f l] runs [f] on every element, left to right, and fails as soon
    as one call fails. *)
Fixpoint mapM {A B : Type} (f : A -> option B) (l : list A) : option (list B) :=
  match l with
  | [] => Some []
  | a :: l' =>
      match f a with
      | Some b =>
          match mapM f l' with
          | Some bs => Some (b :: bs)
          | None => None
          end
      | None => None
      end
  end.

End Err.

Notation "x <- m ;; k" := (Err.bind m (fun x => k))
  (at level 61, m at next level, right associativity).

(* ================================================================= *)
(** ** Binary64, in the Standard Library's specification of IEEE 754 *)

Module Float64.

Definition prec : Z := 53.
Definition emax : Z := 1024.

Definition float64 : Type := spec_float.

Definition mul : float64 -> float64 -> float64 := SFmul prec emax.

Definition div : float64 -> float64 -> float64 := SFdiv prec emax.

Definition opp : float64 -> float64 := SFopp.

Definition is_nan (x : float64) : bool :=
  match x with S754_nan => true | _ => false end.

Definition is_inf (x : float64) : bool :=
  match x with S754_infinity _ => true | _ => false end.

Definition is_zero (x : float64) : bool :=
  match x with S754_zero _ => true | _ => false end.

(** Neither an infinity nor NaN. *)
Definition is_finite (x : float64) : bool :=
  match x with S754_zero _ | S754_finite _ _ _ => true | _ => false end.

(** A zero, or a finite value with the sign bit clear. *)
Definition is_nonneg (x : float64) : bool :=
  match x with S754_zero _ | S754_finite false _ _ => true | _ => false end.

(** An integer as a binary64 value, rounded to nearest even: what
    Python's conversion of an [int] gives.  Exact below [2^53]. *)
Definition of_Z (z : Z) : float64 := binary_normalize prec emax z 0 false.

(** The rational a finite value stands for. *)
Definition to_Q (x : float64) : Q :=
  match x with
  | S754_finite s m e =>
      if 0 <=? e then inject_Z (cond_Zopp s (Z.pos m * 2 ^ e))
      else Qmake (cond_Zopp s (Z.pos m)) (Z.to_pos (2 ^ (- e)))
  | _ => 0%Q
  end.

(** [x / y] on the cells of a float64 array: IEEE 754, never raises. *)
Definition truediv (x y : float64) : option float64 := Some (div x y).

End Float64.

(* ================================================================= *)
(** ** Python built-ins used by the script *)

Module Py.

(** [int(x)] on a float: truncation toward zero; [OverflowError] on an
    infinity and [ValueError] on NaN. *)
Definition int (x : Float64.float64) : option Z :=
  match x with
  | S754_zero _ => Some 0
  | S754_finite s m e => Some (cond_Zopp s (Z.shiftl (Z.pos m) e))
  | S754_infinity _ => None
  | S754_nan => None
  end.

(** The stop/start position a slice bound [k] denotes in a sequence of
    length [n]: a negative bound counts from the end, and every bound is
    clamped to [0..n]. *)
Definition slice_bound (k : Z) (n : nat) : nat :=
  if k <? 0 then Z.to_nat (Z.max 0 (Z.of_nat n + k))
  else Nat.min (Z.to_nat k) n.

(** [a[:k]] *)
Definition slice_to {A : Type} (k : Z) (a : list A) : list A :=
  firstn (slice_bound k (length a)) a.

(** [a[k:]] *)
Definition slice_from {A : Type} (k : Z) (a : list A) : list A :=
  skipn (slice_bound k (length a)) a.

(** [x < y] on numbers. *)
Definition ltb (x y : Q) : bool := negb (Qle_bool y x).

End Py.

(* ================================================================= *)
(** ** zlib.crc32 and numpy.int64 *)

Module Zlib.

(** One bit of the reflected CRC-32 division (polynomial 0xEDB88320). *)
Definition crc_bit (c : Z) : Z :=
  if Z.testbit c 0 then Z.lxor (Z.shiftr c 1) 0xEDB88320 else Z.shiftr c 1.

Definition crc_byte (c b : Z) : Z :=
  Nat.iter 8 crc_bit (Z.lxor c (Z.land b 0xFF)).

(** The CRC-32 of a byte string, as zlib computes it (initial value and
    final complement 0xFFFFFFFF).  The script imports it from zlib; the
    theorems on the hash-based split hold for any checksum function, and
    this one is what the examples run. *)
Definition crc32 (data : list Z) : Z :=
  Z.lxor (fold_left crc_byte data 0xFFFFFFFF) 0xFFFFFFFF.

End Zlib.

Module Numpy64.

Definition int64_min : Z := - 2 ^ 63.
Definition int64_max : Z := 2 ^ 63 - 1.

Definition in_int64 (z : Z) : bool :=
  (int64_min <=? z) && (z <=? int64_max).

(** [np.int64(identifier)] on a Python integer: the value itself when it
    fits 64 signed bits, [OverflowError] otherwise. *)
Definition int64 (identifier : Z) : option Z :=
  if in_int64 identifier then Some identifier else None.

(** The buffer a [np.int64] scalar exposes: its eight bytes in two's
    complement, least significant first. *)
Definition tobytes (v : Z) : list Z :=
  map (fun i => Z.land (Z.shiftr v (8 * Z.of_nat i)) 0xFF) (seq 0 8).

End Numpy64.

(* ================================================================= *)
(** ** pandas: a frame is a list of rows, each with its index label *)

Module Pandas.

Section Frames.

Variable Row : Type.

(** A [DataFrame]: the rows in order, each paired with its index label. *)
Definition DataFrame : Type := list (Z * Row).

Definition index (df : DataFrame) : list Z := map fst df.

(** [data.iloc[positions]]: the rows at the given positions, in the order
    of [positions]; [IndexError] on a position out of bounds. *)
Definition iloc (data : DataFrame) (positions : list nat) : option DataFrame :=
  Err.mapM (fun p => nth_error data p) positions.

(** [data.loc[mask]] with a boolean mask aligned with the rows: the rows
    whose mask entry is [True], in the frame's order. *)
Fixpoint loc (data : DataFrame) (mask : list bool) : DataFrame :=
  match data, mask with
  | r :: data', b :: mask' => if b then r :: loc data' mask' else loc data' mask'
  | _, _ => []
  end.

(** [~mask] *)
Definition invert (mask : list bool) : list bool := map negb mask.

End Frames.

End Pandas.

Import Pandas.

(* ================================================================= *)
(** ** The splitters of the script *)

Section Splitters.

Variable Row : Type.

(** Line 37.  [np.random.permutation(len(data))] is the one random draw;
    its value is the argument [shuffled_indices].  [len(data)] is
    converted to a float and the product is rounded to binary64. *)
Definition split_train_test (shuffled_indices : list nat)
    (data : DataFrame Row) (test_ratio : Float64.float64)
  : option (DataFrame Row * DataFrame Row) :=
  test_set_size <-
    Py.int (Float64.mul (Float64.of_Z (Z.of_nat (length data))) test_ratio) ;;
  let test_indices := Py.slice_to test_set_size shuffled_indices in
  let train_indices := Py.slice_from test_set_size shuffled_indices in
  train_set <- iloc data train_indices ;;
  test_set <- iloc data test_indices ;;
  Some (train_set, test_set).

(** The checksum function imported from zlib. *)
Variable crc32 : list Z -> Z.

(** Line 52.  The identifier is an integer, as in the call on the
    [index] column at line 65; [&] binds tighter than [<]. *)
Definition test_set_check (identifier : Z) (test_ratio : Q) : option bool :=
  v <- Numpy64.int64 identifier ;;
  Some (Py.ltb (inject_Z (Z.land (crc32 (Numpy64.tobytes v)) 0xffffffff))
               (test_ratio * inject_Z (2 ^ 32))%Q).

(** Line 56.  [id_column] reads the identifier cell of a row. *)
Definition split_train_test_by_id (data : DataFrame Row) (test_ratio : Q)
    (id_column : Row -> Z)
  : option (DataFrame Row * DataFrame Row) :=
  let ids := map (fun r => id_column (snd r)) data in
  in_test_set <- Err.mapM (fun id_ => test_set_check id_ test_ratio) ids ;;
  Some (loc data (invert in_test_set), loc data in_test_set).

End Splitters.

(* ================================================================= *)
(** ** NumPy: two-dimensional arrays, column selection, stacking *)

Module Numpy.

Section Arrays.

(** The type of a cell and the division [/] on cells, which may raise. *)
Variable F : Type.
Variable div : F -> F -> option F.

(** A two-dimensional array of shape [(length rows, ncols)]. *)
Record ndarray : Type := mk_ndarray { ncols : nat; rows : list (list F) }.

Definition well_shaped (X : ndarray) : Prop :=
  Forall (fun r => length r = ncols X) (rows X).

(** [X[:, j]]: column [j] as a one-dimensional array; [IndexError] when
    [j] is out of bounds for axis 1. *)
Definition column (X : ndarray) (j : nat) : option (list F) :=
  if (j <? ncols X)%nat then Err.mapM (fun r => nth_error r j) (rows X)
  else None.

(** [a / b] on two one-dimensional arrays of one length, cell by cell;
    it raises as soon as one cell division raises, and [ValueError] on
    two lengths. *)
Fixpoint truediv (a b : list F) : option (list F) :=
  match a, b with
  | [], [] => Some []
  | x :: a', y :: b' =>
      q <- div x y ;;
      qs <- truediv a' b' ;;
      Some (q :: qs)
  | _, _ => None
  end.

(** Stacking the one-dimensional array [c] as a new last column;
    [ValueError] when its length is not the number of rows. *)
Fixpoint append_column (rs : list (list F)) (c : list F)
  : option (list (list F)) :=
  match rs, c with
  | [], [] => Some []
  | r :: rs', x :: c' =>
      rs'' <- append_column rs' c' ;;
      Some ((r ++ [x]) :: rs'')
  | _, _ => None
  end.

(** [np.c_[X, c1, ..., cn]] *)
Fixpoint c_ (X : ndarray) (cs : list (list F)) : option ndarray :=
  match cs with
  | [] => Some X
  | c :: cs' =>
      rs <- append_column (rows X) c ;;
      c_ (mk_ndarray (S (ncols X)) rs) cs'
  end.

End Arrays.

End Numpy.

Import Numpy.

(* ================================================================= *)
(** ** Attribute combinations *)

Definition rooms_ix : nat := 3.
Definition bedroom_ix : nat := 4.
Definition population_ix : nat := 5.
Definition households_ix : nat := 6.

(** Lines 136-138: the three ratios as pandas Series over the rows of
    [housing]; the four variables read the named column of a row.  The
    columns are float64, where [/] never raises. *)
Section Experimenting.

Variable F : Type.
Variable div : F -> F -> F.
Variable Row : Type.
Variables total_rooms total_bedrooms population households : Row -> F.

Definition Series : Type := list (Z * F).

Definition rooms_per_household (housing : DataFrame Row) : Series :=
  map (fun r => (fst r, div (total_rooms (snd r)) (households (snd r)))) housing.

Definition bedrooms_per_room (housing : DataFrame Row) : Series :=
  map (fun r => (fst r, div (total_bedrooms (snd r)) (total_rooms (snd r)))) housing.

Definition population_per_household (housing : DataFrame Row) : Series :=
  map (fun r => (fst r, div (population (snd r)) (households (snd r)))) housing.

End Experimenting.

Section Combined.

Variable F : Type.
Variable div : F -> F -> option F.

(** Line 212. *)
Record CombinedAttributesAdder : Type :=
  { add_bedrooms_per_room : bool }.

(** [__init__], with its default argument. *)
Definition init_default : CombinedAttributesAdder :=
  {| add_bedrooms_per_room := true |}.

(** Line 216. *)
Definition fit (self : CombinedAttributesAdder) (X : ndarray F)
  : CombinedAttributesAdder := self.

(** Line 219. *)
Definition transform (self : CombinedAttributesAdder) (X : ndarray F)
  : option (ndarray F) :=
  rooms <- column X rooms_ix ;;
  households <- column X households_ix ;;
  rooms_per_household <- truediv div rooms households ;;
  population <- column X population_ix ;;
  households' <- column X households_ix ;;
  population_per_household <- truediv div population households' ;;
  if add_bedrooms_per_room self then
    bedrooms <- column X bedroom_ix ;;
    rooms' <- column X rooms_ix ;;
    bedrooms_per_room <- truediv div bedrooms rooms' ;;
    c_ X [rooms_per_household; population_per_household; bedrooms_per_room]
  else
    c_ X [rooms_per_household; population_per_household].

End Combined.

(** A division that never raises, as a cell division. *)
Definition total {F : Type} (div : F -> F -> F) (x y : F) : option F :=
  Some (div x y).

(** Python objects, the cells of an object array: [housing.values] holds
    a Python float for every numeric cell and a string for
    [ocean_proximity]. *)
Module PyObject.

Inductive object : Type :=
| PyFloat (x : Float64.float64)
| PyStr (s : String.string).

(** [a / b] on two objects: [ZeroDivisionError] on a float divided by a
    zero, [TypeError] when an operand is a string. *)
Definition truediv (a b : object) : option object :=
  match a, b with
  | PyFloat x, PyFloat y =>
      if Float64.is_zero y then None else Some (PyFloat (Float64.div x y))
  | _, _ => None
  end.

End PyObject.



(* ================================================================= *)
(** ** Library steps of the script, modelled from the spec *)

(** *** pandas.cut and the income category (line 78) *)

Module Cut.

(** A number that is not NaN: a rational or one of the two infinities.
    [cut] only compares, and comparing binary64 values is exact. *)
Inductive number : Type :=
| NegInf
| Fin (q : Q)
| PosInf.

Definition leb (x y : number) : bool :=
  match x, y with
  | NegInf, _ => true
  | _, PosInf => true
  | Fin a, Fin b => Qle_bool a b
  | _, _ => false
  end.

Definition ltb (x y : number) : bool := negb (leb y x).

(** The number of leading edges strictly below [x]: on sorted edges, the
    leftmost insertion position of [x]. *)
Fixpoint searchsorted_left (bins : list number) (x : number) : nat :=
  match bins with
  | [] => 0%nat
  | b :: bins' => if ltb b x then S (searchsorted_left bins' x) else 0%nat
  end.

(** Modelled from the spec: [pandas.cut] is library code, not under src/;
    only its call with the edges and labels is.  A value is binned into
    the labelled range between two consecutive edges, each range open on
    the left and closed on the right (the library's default); a missing
    value ([None]) and a value in no range get no label. *)
Definition cut {L : Type} (x : option number) (bins : list number)
    (labels : list L) : option L :=
  match x with
  | None => None
  | Some v =>
      let i := searchsorted_left bins v in
      if ((i =? 0) || (i =? length bins))%nat then None
      else nth_error labels (i - 1)
  end.

Definition income_bins : list number :=
  [Fin 0; Fin (3 # 2); Fin 3; Fin (9 # 2); Fin 6; PosInf].

Definition income_labels : list Z := [1; 2; 3; 4; 5].

(** Line 78, on one cell of the [median_income] column. *)
Definition income_cat (median_income : option number) : option Z :=
  cut median_income income_bins income_labels.

(** The range with 1-based label [l]: (edge [l-1], edge [l]]. *)
Definition in_range (l : Z) (v : number) : bool :=
  match nth_error income_bins (Z.to_nat (l - 1)),
        nth_error income_bins (Z.to_nat l) with
  | Some lo, Some hi => (1 <=? l) && ltb lo v && leb v hi
  | _, _ => false
  end.

End Cut.

(** *** sklearn.impute.SimpleImputer(strategy="median") (line 166) *)

Module Imputer.

(** A cell of a numeric column; [None] is the missing value NaN. *)
Definition cell : Type := option Q.

Fixpoint insert (x : Q) (l : list Q) : list Q :=
  match l with
  | [] => [x]
  | y :: l' => if Qle_bool x y then x :: l else y :: insert x l'
  end.

Definition sort (l : list Q) : list Q := fold_right insert [] l.

Definition present (col : list cell) : list Q :=
  flat_map (fun c => match c with Some v => [v] | None => [] end) col.

(** The middle of a sorted list: the middle value, or the mean of the two
    middle ones; NaN for no value. *)
Definition middle (s : list Q) : cell :=
  let n := length s in
  if (n =? 0)%nat then None
  else if Nat.odd n then nth_error s (n / 2)
  else match nth_error s (n / 2 - 1), nth_error s (n / 2) with
       | Some a, Some b => Some (Qred ((a + b) / 2))
       | _, _ => None
       end.

(** The median of the values present in a column. *)
Definition median (col : list cell) : cell := middle (sort (present col)).

(** The imputer's state: [statistics_] is absent until [fit] has run. *)
Record SimpleImputer : Type :=
  { statistics_ : option (list cell) }.

Definition init : SimpleImputer := {| statistics_ := None |}.

(** A table is the list of its numeric columns. *)
Definition table : Type := list (list cell).

(** Modelled from the spec: [sklearn.impute.SimpleImputer] is library
    code, not under src/; only its construction and its [fit] and
    [transform] calls are.  [fit] learns, per numeric column, the median
    of the fit-time data. *)
Definition fit (self : SimpleImputer) (X : table) : SimpleImputer :=
  {| statistics_ := Some (map median X) |}.

Definition fill (learned : cell) (c : cell) : cell :=
  match c with
  | Some v => Some v
  | None => learned
  end.

Fixpoint fill_columns (stats : list cell) (X : table) : table :=
  match stats, X with
  | m :: stats', col :: X' => map (fill m) col :: fill_columns stats' X'
  | _, _ => []
  end.

(** Modelled from the spec: [transform] replaces the missing values of
    each column with the median learned for that column.  It fails on an
    imputer that was not fitted and on a table of another width. *)
Definition transform (self : SimpleImputer) (X : table) : option table :=
  stats <- statistics_ self ;;
  if (length stats =? length X)%nat then Some (fill_columns stats X)
  else None.

End Imputer.

(** *** sklearn.preprocessing.StandardScaler (line 240) *)

Module Scaler.

Definition sum (col : list R) : R := fold_right Rplus 0%R col.

Definition mean (col : list R) : R := (sum col / INR (length col))%R.

(** The population variance, the mean of the squared deviations. *)
Definition variance (col : list R) : R :=
  let m := mean col in
  mean (map (fun x => (x - m) * (x - m))%R col).

(** The learned parameters of one column. *)
Record StandardScaler : Type := { mean_ : R; scale_ : R }.

(** Modelled from the spec: [sklearn.preprocessing.StandardScaler] is
    library code, not under src/; only its construction is.  The scaler
    learns the mean and the standard deviation of a column at fit time. *)
Definition fit (col : list R) : StandardScaler :=
  {| mean_ := mean col; scale_ := sqrt (variance col) |}.

(** Modelled from the spec: [transform] outputs [(value - mean) / stddev],
    and fails (or yields NaN), here [None], when the fit-time standard
    deviation is zero. *)
Definition transform (s : StandardScaler) (value : R) : option R :=
  if Req_dec_T (scale_ s) 0%R then None
  else Some ((value - mean_ s) / scale_ s)%R.

End Scaler.

(** *** sklearn.model_selection.StratifiedShuffleSplit (line 88) *)

Section Stratified.

Variable Row : Type.

(** The stratum cell of a row. *)
Variable strata_column : Row -> Z.

Definition stratum (data : DataFrame Row) (s : Z) : DataFrame Row :=
  filter (fun r => strata_column (snd r) =? s) data.

Definition strata (data : DataFrame Row) : list Z :=
  nodup Z.eq_dec (map (fun r => strata_column (snd r)) data).

(** Modelled from the spec: one stratum sampled at the ratio.  The rows
    at the first [floor (c * ratio)] positions of the permutation drawn
    for a stratum of [c] rows are its test rows, the others its train
    rows (the spec's policy: a size that is not integral is floored). *)
Definition sample (drawn : list nat) (rows : DataFrame Row) (test_ratio : Q)
  : option (DataFrame Row * DataFrame Row) :=
  let k := Z.to_nat (Qfloor (inject_Z (Z.of_nat (length rows)) * test_ratio)) in
  train <- iloc rows (skipn k drawn) ;;
  test <- iloc rows (firstn k drawn) ;;
  Some (train, test).

(** Modelled from the spec: [StratifiedShuffleSplit] is library code, not
    under src/; only its construction and its [split] call are.  The rows
    are partitioned into strata by the categorical column, and each
    stratum is sampled independently at the same ratio; [draw s] is the
    permutation drawn for stratum [s]. *)
Definition stratified_split (draw : Z -> list nat) (data : DataFrame Row)
    (test_ratio : Q) : option (DataFrame Row * DataFrame Row) :=
  parts <- Err.mapM (fun s => sample (draw s) (stratum data s) test_ratio)
                    (strata data) ;;
  Some (concat (map fst parts), concat (map snd parts)).

End Stratified.

(* ================================================================= *)
(** ** Vocabulary of the statements *)

(** [l1] is [l2] with some elements left out, the others in their order. *)
Inductive subseq {A : Type} : list A -> list A -> Prop :=
| subseq_nil : subseq [] []
| subseq_skip : forall x l1 l2, subseq l1 l2 -> subseq l1 (x :: l2)
| subseq_keep : forall x l1 l2, subseq l1 l2 -> subseq (x :: l1) (x :: l2).

(** The rows of [out] are the rows of [data] at [positions], in that order. *)
Definition rows_at {Row : Type} (data : DataFrame Row) (positions : list nat)
    (out : DataFrame Row) : Prop :=
  Forall2 (fun p r => nth_error data p = Some r) positions out.

(** The position lists [ptrain] and [ptest] partition the row positions
    [0 .. N-1]: every position is in one of them, and none in both. *)
Definition position_partition (N : nat) (ptrain ptest : list nat) : Prop :=
  Permutation (ptrain ++ ptest) (seq 0 N) /\
  (forall p, (p < N)%nat <-> In p ptrain \/ In p ptest) /\
  (forall p, In p ptrain -> In p ptest -> False).

(** [train] and [test] are the rows of [data] at [ptrain] and at [ptest],
    two position lists that partition the row positions of [data]. *)
Definition split_at {Row : Type} (data train test : DataFrame Row)
    (ptrain ptest : list nat) : Prop :=
  rows_at data ptrain train /\
  rows_at data ptest test /\
  position_partition (length data) ptrain ptest.

(** The positions, counted from [start], where a mask is [True]. *)
Fixpoint where_ (mask : list bool) (start : nat) : list nat :=
  match mask with
  | [] => []
  | b :: mask' =>
      if b then start :: where_ mask' (S start) else where_ mask' (S start)
  end.

(** The 32-bit checksum of an identifier, as [test_set_check] computes it. *)
Definition checksum (crc32 : list Z -> Z) (identifier : Z) : Z :=
  Z.land (crc32 (Numpy64.tobytes identifier)) 0xffffffff.

(** The comparison of [test_set_check], on an identifier that fits. *)
Definition in_test (crc32 : list Z -> Z) (test_ratio : Q) (identifier : Z)
  : bool :=
  Py.ltb (inject_Z (checksum crc32 identifier))
         (test_ratio * inject_Z (2 ^ 32))%Q.

(** Every identifier of the frame fits [np.int64]. *)
Definition ids_fit {Row : Type} (id_column : Row -> Z) (data : DataFrame Row)
  : Prop :=
  Forall (fun r => Numpy64.in_int64 (id_column (snd r)) = true) data.

(** Row [y] is row [r] followed by the ratios the adder computes from
    the cells of [r] at the four fixed positions, no division raising. *)
Definition extended_row {F : Type} (div : F -> F -> option F)
    (with_bedrooms : bool) (r y : list F) : Prop :=
  exists rooms bedrooms population households q1 q2,
    nth_error r rooms_ix = Some rooms /\
    nth_error r bedroom_ix = Some bedrooms /\
    nth_error r population_ix = Some population /\
    nth_error r households_ix = Some households /\
    div rooms households = Some q1 /\
    div population households = Some q2 /\
    if with_bedrooms
    then exists q3, div bedrooms rooms = Some q3 /\ y = r ++ [q1; q2; q3]
    else y = r ++ [q1; q2].

(** Line 64, [housing_df.reset_index()]: the old index labels become
    the column [index] of every row, and the rows are relabelled by
    position. *)
Definition reset_index {Row : Type} (df : DataFrame Row) : DataFrame (Z * Row) :=
  combine (map Z.of_nat (seq 0 (length df))) df.

(** The column [index] of a frame returned by [reset_index]. *)
Definition index_column {Row : Type} (r : Z * Row) : Z := fst r.

(** The row-wise reading of [transform]: the row followed by its ratios,
    or nothing when a cell at one of the four positions is missing or a
    division raises. *)
Definition extend_row {F : Type} (div : F -> F -> option F)
    (with_bedrooms : bool) (r : list F) : option (list F) :=
  rooms <- nth_error r rooms_ix ;;
  bedrooms <- nth_error r bedroom_ix ;;
  population <- nth_error r population_ix ;;
  households <- nth_error r households_ix ;;
  q1 <- div rooms households ;;
  q2 <- div population households ;;
  if with_bedrooms
  then q3 <- div bedrooms rooms ;; Some (r ++ [q1; q2; q3])
  else Some (r ++ [q1; q2]).

(** A division that [transform] computes from the cells of row [r]
    raises. *)
Definition row_raises {F : Type} (div : F -> F -> option F)
    (with_bedrooms : bool) (r : list F) : Prop :=
  exists rooms bedrooms population households,
    nth_error r rooms_ix = Some rooms /\
    nth_error r bedroom_ix = Some bedrooms /\
    nth_error r population_ix = Some population /\
    nth_error r households_ix = Some households /\
    (div rooms households = None \/
     div population households = None \/
     (with_bedrooms = true /\ div bedrooms rooms = None)).

(** How many values of [vs] are at most [m], and how many at least [m]. *)
Definition at_most (m : Q) (vs : list Q) : nat :=
  length (filter (fun v => Qle_bool v m) vs).

Definition at_least (m : Q) (vs : list Q) : nat :=
  length (filter (fun v => Qle_bool m v) vs).

(** [m] is a median of [vs]: at least half of the values are at most
    [m], and at least half are at least [m]. *)
Definition is_median (vs : list Q) (m : Q) : Prop :=
  (length vs <= 2 * at_most m vs)%nat /\
  (length vs <= 2 * at_least m vs)%nat.

(** [m] is the middle of the values [vs] put in ascending order. *)
Definition middle_of_sorted (vs : list Q) (m : Imputer.cell) : Prop :=
  exists s,
    Permutation s vs /\ StronglySorted Qle s /\ Imputer.middle s = m.

(* ================================================================= *)
(** * Properties *)

Example crc32_check_value :
  Zlib.crc32 [49; 50; 51; 52; 53; 54; 55; 56; 57] = 0xCBF43926.
Proof. vm_compute. reflexivity. Qed.

(** ** The error monad *)

Section MapM.

Variables A B : Type.
Variable f : A -> option B.

Lemma mapM_Forall2 (l : list A) (bs : list B) :
  Err.mapM f l = Some bs <-> Forall2 (fun a b => f a = Some b) l bs.
Proof.
  revert bs. induction l as [|a l IH]; intros bs; simpl.
  - split.
    + intros H. injection H as <-. constructor.
    + intros H. inversion H. reflexivity.
  - destruct (f a) as [b|] eqn:Ea.
    + destruct (Err.mapM f l) as [bs'|] eqn:El.
      * split.
        -- intros H. injection H as <-. constructor; [assumption|].
           apply IH. reflexivity.
        -- intros H. inversion H as [|? b0 ? bs0 Hb Hbs]; subst.
           apply IH in Hbs. congruence.
      * split; [discriminate|].
        intros H. inversion H as [|? b0 ? bs0 Hb Hbs]; subst.
        apply IH in Hbs. discriminate.
    + split; [discriminate|].
      intros H. inversion H; subst. congruence.
Qed.

Lemma mapM_total (l : list A) :
  Forall (fun a => exists b, f a = Some b) l ->
  exists bs, Err.mapM f l = Some bs.
Proof.
  induction 1 as [|a l [b Hb] _ [bs Hbs]]; simpl.
  - eexists. reflexivity.
  - rewrite Hb, Hbs. eexists. reflexivity.
Qed.

Lemma mapM_app (l1 l2 : list A) (bs : list B) :
  Err.mapM f (l1 ++ l2) = Some bs ->
  exists bs1 bs2,
    Err.mapM f l1 = Some bs1 /\ Err.mapM f l2 = Some bs2 /\ bs = bs1 ++ bs2.
Proof.
  intros H. apply mapM_Forall2 in H. apply Forall2_app_inv_l in H.
  destruct H as (bs1 & bs2 & H1 & H2 & ->).
  exists bs1, bs2. repeat split; apply mapM_Forall2; assumption.
Qed.

Lemma mapM_Permutation (l l' : list A) :
  Permutation l l' ->
  forall bs, Err.mapM f l = Some bs ->
  exists bs', Err.mapM f l' = Some bs' /\ Permutation bs bs'.
Proof.
  induction 1 as [|a l l' _ IH|a a' l|l l' l'' _ IH1 _ IH2]; intros bs Hbs.
  - exists bs. split; [assumption|reflexivity].
  - simpl in *. destruct (f a) as [b|]; [|discriminate].
    destruct (Err.mapM f l) as [bs0|]; [|discriminate].
    injection Hbs as <-. destruct (IH _ eq_refl) as (bs' & -> & Hp).
    eexists. split; [reflexivity|]. constructor. assumption.
  - simpl in *. destruct (f a') as [b'|]; [|discriminate].
    destruct (f a) as [b|]; [|discriminate].
    destruct (Err.mapM f l) as [bs0|]; [|discriminate].
    injection Hbs as <-. eexists. split; [reflexivity|]. apply perm_swap.
  - destruct (IH1 _ Hbs) as (bs1 & H1 & Hp1).
    destruct (IH2 _ H1) as (bs2 & H2 & Hp2).
    exists bs2. split; [assumption|]. etransitivity; eassumption.
Qed.

End MapM.

(** ** Lists *)

Section ListFacts.

Variable A : Type.

Lemma NoDup_app_disjoint (l1 l2 : list A) (a : A) :
  NoDup (l1 ++ l2) -> In a l1 -> In a l2 -> False.
Proof.
  intros Hnd H1 H2. apply in_split in H1. destruct H1 as (p & q & ->).
  rewrite <- app_assoc in Hnd. simpl in Hnd.
  apply NoDup_remove_2 in Hnd. apply Hnd.
  rewrite !in_app_iff. right. right. assumption.
Qed.

Variable g : A -> bool.

Lemma filter_split_Permutation (l : list A) :
  Permutation (filter (fun x => negb (g x)) l ++ filter g l) l.
Proof.
  induction l as [|x l IH]; simpl; [constructor|].
  destruct (g x); simpl.
  - apply Permutation_sym, Permutation_cons_app, Permutation_sym, IH.
  - constructor. exact IH.
Qed.

Lemma filter_subseq (l : list A) : subseq (filter g l) l.
Proof.
  induction l as [|x l IH]; simpl; [constructor|].
  destruct (g x); constructor; exact IH.
Qed.

Lemma subseq_In (l1 l2 : list A) (x : A) : subseq l1 l2 -> In x l1 -> In x l2.
Proof.
  induction 1 as [|y l1 l2 _ IH|y l1 l2 _ IH]; simpl; intuition.
Qed.

Lemma subseq_length (l1 l2 : list A) :
  subseq l1 l2 -> (length l1 <= length l2)%nat.
Proof.
  induction 1; simpl; lia.
Qed.

End ListFacts.

(** ** Frames *)

Section FrameFacts.

Variable Row : Type.
Implicit Types data train test : DataFrame Row.

Lemma rows_at_seq_from (pre data : DataFrame Row) :
  rows_at (pre ++ data) (seq (length pre) (length data)) data.
Proof.
  revert pre. induction data as [|r data IH]; intros pre; simpl.
  - constructor.
  - constructor.
    + rewrite nth_error_app2 by lia. rewrite Nat.sub_diag. reflexivity.
    + specialize (IH (pre ++ [r])).
      rewrite <- app_assoc, length_app in IH. simpl in IH.
      rewrite Nat.add_1_r in IH. exact IH.
Qed.

Lemma iloc_all data : iloc data (seq 0 (length data)) = Some data.
Proof.
  apply mapM_Forall2. exact (rows_at_seq_from [] data).
Qed.

Lemma iloc_rows_at data positions out :
  iloc data positions = Some out <-> rows_at data positions out.
Proof. apply mapM_Forall2. Qed.

(** Cutting a permutation of the positions at any point [n] and reading
    the two parts never fails, and the two parts hold every row once. *)
Lemma iloc_cut data (shuffled : list nat) (n : nat) :
  Permutation shuffled (seq 0 (length data)) ->
  exists train test,
    iloc data (skipn n shuffled) = Some train /\
    iloc data (firstn n shuffled) = Some test /\
    Permutation (train ++ test) data.
Proof.
  intros Hp.
  destruct (mapM_Permutation (fun p => nth_error data p) (Permutation_sym Hp)
              (iloc_all data)) as (out & Hout & Hperm).
  rewrite <- (firstn_skipn n shuffled) in Hout.
  apply mapM_app in Hout. destruct Hout as (test & train & Ht & Htr & ->).
  exists train, test. repeat split; try assumption.
  etransitivity; [apply Permutation_app_comm|].
  apply Permutation_sym. exact Hperm.
Qed.

Lemma loc_filter (g : Z * Row -> bool) data :
  loc data (map g data) = filter g data.
Proof.
  induction data as [|r data IH]; simpl; [reflexivity|].
  rewrite IH. reflexivity.
Qed.

Lemma loc_invert_filter (g : Z * Row -> bool) data :
  loc data (invert (map g data)) = filter (fun r => negb (g r)) data.
Proof.
  unfold invert. rewrite map_map. apply loc_filter.
Qed.

End FrameFacts.

(** ** Python numbers *)

Lemma ltb_lt (x y : Q) : Py.ltb x y = true <-> (x < y)%Q.
Proof.
  unfold Py.ltb. rewrite negb_true_iff. split; intros H.
  - apply Qnot_le_lt. intros Hle. apply Qle_bool_iff in Hle. congruence.
  - destruct (Qle_bool y x) eqn:E; [|reflexivity].
    apply Qle_bool_iff in E. exfalso. eapply Qlt_not_le; eassumption.
Qed.

Lemma int_finite (x : Float64.float64) :
  Float64.is_finite x = true -> exists k, Py.int x = Some k.
Proof.
  destruct x; try discriminate; intros _; eexists; reflexivity.
Qed.

Lemma int_not_finite (x : Float64.float64) :
  Float64.is_finite x = false -> Py.int x = None.
Proof.
  destruct x; try discriminate; reflexivity.
Qed.

(** On a finite value that is not negative, [int] is the floor. *)
Lemma int_floor (x : Float64.float64) :
  Float64.is_nonneg x = true ->
  Py.int x = Some (Qfloor (Float64.to_Q x)) /\ 0 <= Qfloor (Float64.to_Q x).
Proof.
  destruct x as [s|s| |s m e]; try discriminate.
  - intros _. split; [reflexivity|].
    change (0 <= Qfloor (inject_Z 0)). rewrite Qfloor_Z. lia.
  - destruct s; [discriminate|]. intros _.
    unfold Py.int, Float64.to_Q, cond_Zopp.
    destruct (0 <=? e) eqn:E.
    + apply Z.leb_le in E. rewrite Qfloor_Z, Z.shiftl_mul_pow2 by exact E.
      split; [reflexivity|]. apply Z.mul_nonneg_nonneg; [lia|].
      apply Z.pow_nonneg. lia.
    + apply Z.leb_gt in E.
      assert (Hp : 0 < 2 ^ (- e)) by (apply Z.pow_pos_nonneg; lia).
      unfold Qfloor. rewrite Z2Pos.id by exact Hp.
      rewrite <- (Z.opp_involutive e) at 1.
      rewrite Z.shiftl_opp_r, Z.shiftr_div_pow2 by lia.
      split; [reflexivity|]. apply Z.div_pos; lia.
Qed.

Lemma slice_bound_nonneg (k : Z) (n : nat) :
  0 <= k -> Py.slice_bound k n = Nat.min (Z.to_nat k) n.
Proof.
  intros H. unfold Py.slice_bound.
  destruct (k <? 0) eqn:E; [apply Z.ltb_lt in E; lia|reflexivity].
Qed.

Lemma checksum_range (crc32 : list Z -> Z) (identifier : Z) :
  0 <= checksum crc32 identifier < 2 ^ 32.
Proof.
  unfold checksum. change 0xffffffff with (Z.ones 32).
  rewrite Z.land_ones by lia. apply Z.mod_pos_bound. lia.
Qed.

(** ** Positions *)

Lemma position_partition_of_perm (N : nat) (ptrain ptest : list nat) :
  Permutation (ptrain ++ ptest) (seq 0 N) ->
  position_partition N ptrain ptest.
Proof.
  intros Hp. split; [exact Hp|split].
  - intros p. rewrite <- in_app_iff. split; intros H.
    + eapply Permutation_in; [apply Permutation_sym; exact Hp|].
      apply in_seq. lia.
    + apply (Permutation_in _ Hp) in H. apply in_seq in H. lia.
  - intros p H1 H2.
    apply (@NoDup_app_disjoint nat ptrain ptest p); try assumption.
    eapply Permutation_NoDup; [apply Permutation_sym; exact Hp|].
    apply seq_NoDup.
Qed.

Section MaskPositions.

Variable Row : Type.
Implicit Types data : DataFrame Row.

Lemma where_from (mask : list bool) (start p : nat) :
  In p (where_ mask start) -> (start <= p)%nat.
Proof.
  revert start. induction mask as [|b mask IH]; intros start H; simpl in H.
  - contradiction.
  - destruct b; [destruct H as [<-|H]; [lia|]|];
      apply IH in H; lia.
Qed.

Lemma where_sorted (mask : list bool) (start : nat) :
  StronglySorted lt (where_ mask start).
Proof.
  revert start. induction mask as [|b mask IH]; intros start; simpl.
  - constructor.
  - destruct b; [|apply IH]. constructor; [apply IH|].
    apply Forall_forall. intros p Hp. apply where_from in Hp. lia.
Qed.

Lemma where_Permutation (mask : list bool) (start : nat) :
  Permutation (where_ (invert mask) start ++ where_ mask start)
              (seq start (length mask)).
Proof.
  revert start. induction mask as [|b mask IH]; intros start; simpl.
  - constructor.
  - destruct b; simpl.
    + apply Permutation_sym, Permutation_cons_app, Permutation_sym, IH.
    + constructor. apply IH.
Qed.

Lemma rows_at_where (pre data : DataFrame Row) (mask : list bool) :
  length mask = length data ->
  rows_at (pre ++ data) (where_ mask (length pre)) (loc data mask).
Proof.
  revert pre mask. induction data as [|r data IH]; intros pre mask H.
  - destruct mask; [constructor|discriminate].
  - destruct mask as [|b mask]; [discriminate|]. simpl in H.
    assert (Hrest : rows_at (pre ++ r :: data) (where_ mask (S (length pre)))
                      (loc data mask)).
    { specialize (IH (pre ++ [r]) mask).
      rewrite <- app_assoc, length_app in IH. simpl in IH.
      rewrite Nat.add_1_r in IH. apply IH. lia. }
    simpl. destruct b; [|exact Hrest].
    constructor; [|exact Hrest].
    rewrite nth_error_app2 by lia. rewrite Nat.sub_diag. reflexivity.
Qed.

End MaskPositions.

(** ** The random split *)

Section RandomSplit.

Variable Row : Type.
Implicit Types data train test : DataFrame Row.

Lemma firstn_clamp (B : Type) (k : nat) (l : list B) :
  firstn (Nat.min k (length l)) l = firstn k l.
Proof.
  destruct (Nat.le_gt_cases k (length l)) as [H|H].
  - rewrite Nat.min_l by assumption. reflexivity.
  - rewrite Nat.min_r by lia. rewrite firstn_all, firstn_all2 by lia.
    reflexivity.
Qed.

Lemma skipn_clamp (B : Type) (k : nat) (l : list B) :
  skipn (Nat.min k (length l)) l = skipn k l.
Proof.
  destruct (Nat.le_gt_cases k (length l)) as [H|H].
  - rewrite Nat.min_l by assumption. reflexivity.
  - rewrite Nat.min_r by lia. rewrite skipn_all, skipn_all2 by lia.
    reflexivity.
Qed.

(** The binary64 product [len(data) * test_ratio]. *)
Let product data (test_ratio : Float64.float64) : Float64.float64 :=
  Float64.mul (Float64.of_Z (Z.of_nat (length data))) test_ratio.

(** When [int] raises, so does the split. *)
Lemma split_train_test_raises (shuffled : list nat) data
    (test_ratio : Float64.float64) :
  Py.int (product data test_ratio) = None ->
  split_train_test shuffled data test_ratio = None.
Proof.
  intros H. unfold split_train_test. fold (product data test_ratio).
  rewrite H. reflexivity.
Qed.

(** When [int] returns [k], the two slices cut the permutation at the one
    point the bound [k] denotes, so the split returns, and its outputs
    hold every row once. *)
Lemma split_train_test_at (shuffled : list nat) data
    (test_ratio : Float64.float64) (k : Z) (n : nat) :
  Permutation shuffled (seq 0 (length data)) ->
  Py.int (product data test_ratio) = Some k ->
  Py.slice_bound k (length shuffled) = n ->
  exists train test,
    split_train_test shuffled data test_ratio = Some (train, test) /\
    iloc data (firstn n shuffled) = Some test /\
    iloc data (skipn n shuffled) = Some train /\
    Permutation (train ++ test) data.
Proof.
  intros Hp Hk Hn. unfold split_train_test, Py.slice_to, Py.slice_from.
  fold (product data test_ratio). rewrite Hk. simpl Err.bind. rewrite Hn.
  destruct (iloc_cut data n Hp) as (train & test & Htr & Hte & Hperm).
  exists train, test. rewrite Htr, Hte. simpl. auto.
Qed.

End RandomSplit.

(** ** The hash-based split *)

Section HashSplit.

Variable Row : Type.
Variable crc32 : list Z -> Z.
Variable id_column : Row -> Z.
Implicit Types data train test : DataFrame Row.

Let row_in_test (test_ratio : Q) (r : Z * Row) : bool :=
  in_test crc32 test_ratio (id_column (snd r)).

Lemma test_set_check_fit (identifier : Z) (test_ratio : Q) :
  Numpy64.in_int64 identifier = true ->
  test_set_check crc32 identifier test_ratio =
  Some (in_test crc32 test_ratio identifier).
Proof.
  intros H. unfold test_set_check, Numpy64.int64. rewrite H. reflexivity.
Qed.

Lemma test_set_check_overflow (identifier : Z) (test_ratio : Q) :
  Numpy64.in_int64 identifier = false ->
  test_set_check crc32 identifier test_ratio = None.
Proof.
  intros H. unfold test_set_check, Numpy64.int64. rewrite H. reflexivity.
Qed.

Lemma mask_of_ids data (test_ratio : Q) :
  ids_fit id_column data ->
  Err.mapM (fun id_ => test_set_check crc32 id_ test_ratio)
           (map (fun r => id_column (snd r)) data)
  = Some (map (row_in_test test_ratio) data).
Proof.
  induction 1 as [|r data Hr _ IH]; simpl; [reflexivity|].
  rewrite (test_set_check_fit _ test_ratio Hr), IH. reflexivity.
Qed.

(** The hash-based split is the pair of order-keeping filters on the
    comparison of [test_set_check]. *)
Lemma split_train_test_by_id_filter data (test_ratio : Q) :
  ids_fit id_column data ->
  split_train_test_by_id crc32 data test_ratio id_column =
  Some (filter (fun r => negb (row_in_test test_ratio r)) data,
        filter (row_in_test test_ratio) data).
Proof.
  intros H. unfold split_train_test_by_id.
  rewrite (mask_of_ids test_ratio H). simpl.
  rewrite loc_invert_filter, loc_filter. reflexivity.
Qed.

End HashSplit.

Lemma Permutation_filter (A : Type) (g : A -> bool) (l l' : list A) :
  Permutation l l' -> Permutation (filter g l) (filter g l').
Proof.
  induction 1 as [|x l l' _ IH|x y l|l l' l'' _ IH1 _ IH2]; simpl.
  - constructor.
  - destruct (g x); [constructor|]; exact IH.
  - destruct (g x), (g y); try reflexivity. apply perm_swap.
  - etransitivity; eassumption.
Qed.

(* ================================================================= *)
(** * The splitters: partition, checksum rule, stability, cut size *)

(** C1, amended.  For every table, whenever a splitter returns, its train
    and test tables are the rows at two lists of row positions that
    partition the row positions of the source exactly: every position is
    in one list and none is in both.  The hash-based split keeps the
    source order inside each output (its position lists are ascending).
    The random split does not: its outputs list the rows in the order of
    the drawn permutation, test rows first.  The random split returns
    when the binary64 product [len(data) * test_ratio] is finite, and
    raises otherwise; the hash-based split returns when every identifier
    fits [np.int64]. *)
Theorem split_outputs_partition_source :
  forall (Row : Type) (crc32 : list Z -> Z) (data : DataFrame Row),
    (forall (test_ratio : Float64.float64) (shuffled : list nat),
        Permutation shuffled (seq 0 (length data)) ->
        let product :=
          Float64.mul (Float64.of_Z (Z.of_nat (length data))) test_ratio in
        (Float64.is_finite product = true ->
         exists train test ptrain ptest,
           split_train_test shuffled data test_ratio = Some (train, test) /\
           split_at data train test ptrain ptest /\
           shuffled = ptest ++ ptrain) /\
        (Float64.is_finite product = false ->
         split_train_test shuffled data test_ratio = None)) /\
    (forall (test_ratio : Q) (id_column : Row -> Z),
        ids_fit id_column data ->
        exists train test ptrain ptest,
          split_train_test_by_id crc32 data test_ratio id_column
          = Some (train, test) /\
          split_at data train test ptrain ptest /\
          StronglySorted lt ptrain /\ StronglySorted lt ptest).
Proof.
  intros Row crc32 data. split.
  - intros test_ratio shuffled Hp product. split.
    + intros Hfin. destruct (int_finite _ Hfin) as [k Hk].
      destruct (@split_train_test_at Row shuffled data test_ratio k _ Hp Hk
                  eq_refl) as (train & test & Hs & Hte & Htr & _).
      set (n := Py.slice_bound k (length shuffled)) in *.
      exists train, test, (skipn n shuffled), (firstn n shuffled).
      split; [exact Hs|]. split.
      * split; [apply iloc_rows_at; exact Htr|].
        split; [apply iloc_rows_at; exact Hte|].
        apply position_partition_of_perm.
        etransitivity; [apply Permutation_app_comm|].
        rewrite firstn_skipn. exact Hp.
      * symmetry. apply firstn_skipn.
    + intros Hinf. apply split_train_test_raises.
      apply int_not_finite. exact Hinf.
  - intros test_ratio id_column Hfit.
    unfold split_train_test_by_id.
    rewrite (mask_of_ids crc32 test_ratio Hfit). simpl Err.bind.
    set (mask := map (fun r : Z * Row =>
                        in_test crc32 test_ratio (id_column (snd r))) data).
    assert (Hlen : length mask = length data) by apply length_map.
    assert (Hlen' : length (invert mask) = length data).
    { unfold invert. rewrite length_map. exact Hlen. }
    exists (loc data (invert mask)), (loc data mask),
      (where_ (invert mask) 0), (where_ mask 0).
    split; [reflexivity|]. split; [|split; apply where_sorted].
    split; [exact (rows_at_where [] data (invert mask) Hlen')|].
    split; [exact (rows_at_where [] data mask Hlen)|].
    apply position_partition_of_perm. rewrite <- Hlen.
    apply where_Permutation.
Qed.

Lemma split_outputs_partition_source_witness :
  let data : DataFrame Z := [(0, 0); (1, 1); (2, 2); (3, 3)] in
  let half := Float64.div (Float64.of_Z 1) (Float64.of_Z 2) in
  Permutation [2; 0; 3; 1]%nat (seq 0 (length data)) /\
  Float64.is_finite
    (Float64.mul (Float64.of_Z (Z.of_nat (length data))) half) = true /\
  ids_fit (fun r => r) data /\
  (exists train test ptrain ptest,
      split_train_test [2; 0; 3; 1]%nat data half = Some (train, test) /\
      split_at data train test ptrain ptest /\
      [2; 0; 3; 1]%nat = ptest ++ ptrain) /\
  (exists train test ptrain ptest,
      split_train_test_by_id Zlib.crc32 data (1 # 2) (fun r => r)
      = Some (train, test) /\
      split_at data train test ptrain ptest /\
      StronglySorted lt ptrain /\ StronglySorted lt ptest).
Proof.
  intros data half.
  assert (Hp : Permutation [2; 0; 3; 1]%nat (seq 0 (length data))).
  { simpl. apply Permutation_sym.
    apply (@Permutation_cons_app nat _ [2%nat] [3; 1]%nat 0%nat).
    apply (@Permutation_cons_app nat _ [2; 3]%nat [] 1%nat). simpl.
    constructor. constructor. constructor. }
  assert (Hfin : Float64.is_finite
                   (Float64.mul (Float64.of_Z (Z.of_nat (length data))) half)
                 = true) by reflexivity.
  assert (Hf : ids_fit (fun r : Z => r) data).
  { repeat constructor. }
  destruct (split_outputs_partition_source Zlib.crc32 data) as [Hr Hh].
  split; [exact Hp|]. split; [exact Hfin|]. split; [exact Hf|].
  split; [exact (proj1 (Hr half _ Hp) Hfin)|apply Hh; exact Hf].
Defined.

(** C1 as stated fails on the random split: with the permutation [1; 0]
    of a two-row table the train table holds the rows in reverse, which
    is not the source order. *)
Lemma random_split_reorders_rows :
  let data : DataFrame Z := [(0, 10); (1, 11)] in
  Permutation [1; 0]%nat (seq 0 (length data)) /\
  split_train_test [1; 0]%nat data (S754_zero false)
  = Some ([(1, 11); (0, 10)], []) /\
  ~ subseq [(1, 11); (0, 10)] data.
Proof.
  intros data. split; [apply perm_swap|]. split; [reflexivity|].
  intros H. unfold data in H.
  repeat match goal with
         | H : subseq _ (_ :: _) |- _ => inversion H; clear H; subst
         | H : subseq (_ :: _) [] |- _ => inversion H
         end.
Qed.

(** C2.  For every row and every ratio, the hash-based split puts the row
    in the test table if and only if the 32-bit checksum of its
    identifier is strictly below [ratio * 2^32]; the train table is
    exactly the remaining rows.  Both tables keep the source order. *)
Theorem hash_split_by_checksum :
  forall (Row : Type) (crc32 : list Z -> Z) (data : DataFrame Row)
         (test_ratio : Q) (id_column : Row -> Z),
    ids_fit id_column data ->
    exists train test,
      split_train_test_by_id crc32 data test_ratio id_column
      = Some (train, test) /\
      test = filter (fun r => in_test crc32 test_ratio (id_column (snd r))) data /\
      train = filter (fun r => negb (in_test crc32 test_ratio (id_column (snd r))))
                     data /\
      forall r, In r data ->
        let c := checksum crc32 (id_column (snd r)) in
        0 <= c < 2 ^ 32 /\
        (In r test <-> (inject_Z c < test_ratio * inject_Z (2 ^ 32))%Q) /\
        (In r train <-> ~ In r test).
Proof.
  intros Row crc32 data test_ratio id_column Hfit.
  rewrite (split_train_test_by_id_filter crc32 test_ratio Hfit).
  do 2 eexists. split; [reflexivity|]. split; [reflexivity|].
  split; [reflexivity|].
  intros r Hr c. split; [apply checksum_range|].
  rewrite !filter_In.
  assert (E : (inject_Z c < test_ratio * inject_Z (2 ^ 32))%Q <->
              in_test crc32 test_ratio (id_column (snd r)) = true)
    by (symmetry; apply ltb_lt).
  rewrite E.
  destruct (in_test crc32 test_ratio (id_column (snd r))); simpl;
    intuition congruence.
Qed.

Lemma hash_split_by_checksum_witness :
  let data : DataFrame Z := [(0, 0); (1, 1); (2, 2); (3, 3); (4, 4); (5, 5)] in
  ids_fit (fun r => r) data /\
  split_train_test_by_id Zlib.crc32 data (1 # 5) (fun r => r)
  = Some ([(0, 0); (1, 1); (3, 3); (4, 4)], [(2, 2); (5, 5)]) /\
  (inject_Z (checksum Zlib.crc32 2) < (1 # 5) * inject_Z (2 ^ 32))%Q.
Proof.
  intros data.
  assert (Hf : ids_fit (fun r : Z => r) data) by (repeat constructor).
  destruct (hash_split_by_checksum Zlib.crc32 (1 # 5) Hf)
    as (train & test & Hs & Hte & Htr & Hall).
  split; [exact Hf|].
  split.
  - rewrite Hs, Hte, Htr. vm_compute. reflexivity.
  - apply (Hall (2, 2)).
    + simpl. tauto.
    + rewrite Hte. vm_compute. tauto.
Defined.

(** C3.  For every two tables and one ratio, the hash-based split puts
    two rows with the same identifier on the same side, wherever they
    stand and whatever other rows surround them; and on two tables that
    are reorderings of each other the two test tables, and the two train
    tables, hold the same rows. *)
Theorem hash_split_stable :
  forall (Row : Type) (crc32 : list Z -> Z) (data1 data2 : DataFrame Row)
         (test_ratio : Q) (id_column : Row -> Z),
    ids_fit id_column data1 ->
    ids_fit id_column data2 ->
    exists train1 test1 train2 test2,
      split_train_test_by_id crc32 data1 test_ratio id_column
      = Some (train1, test1) /\
      split_train_test_by_id crc32 data2 test_ratio id_column
      = Some (train2, test2) /\
      (forall r1 r2,
          In r1 data1 -> In r2 data2 ->
          id_column (snd r1) = id_column (snd r2) ->
          (In r1 test1 <-> In r2 test2) /\ (In r1 train1 <-> In r2 train2)) /\
      (Permutation data1 data2 ->
       Permutation test1 test2 /\ Permutation train1 train2).
Proof.
  intros Row crc32 data1 data2 test_ratio id_column H1 H2.
  rewrite (split_train_test_by_id_filter crc32 test_ratio H1).
  rewrite (split_train_test_by_id_filter crc32 test_ratio H2).
  do 4 eexists. split; [reflexivity|]. split; [reflexivity|]. split.
  - intros r1 r2 Hr1 Hr2 E. rewrite !filter_In, E. tauto.
  - intros Hp. split; apply Permutation_filter; exact Hp.
Qed.

Lemma hash_split_stable_witness :
  let data1 : DataFrame Z := [(0, 0); (1, 1); (2, 2); (3, 3)] in
  let data2 : DataFrame Z := [(0, 7); (1, 2); (2, 9); (3, 0); (4, 5)] in
  ids_fit (fun r => r) data1 /\
  ids_fit (fun r => r) data2 /\
  exists train1 test1 train2 test2,
    split_train_test_by_id Zlib.crc32 data1 (1 # 5) (fun r => r)
    = Some (train1, test1) /\
    split_train_test_by_id Zlib.crc32 data2 (1 # 5) (fun r => r)
    = Some (train2, test2) /\
    (In (2, 2) test1 <-> In (1, 2) test2) /\
    (In (0, 0) train1 <-> In (3, 0) train2).
Proof.
  intros data1 data2.
  assert (H1 : ids_fit (fun r : Z => r) data1) by (repeat constructor).
  assert (H2 : ids_fit (fun r : Z => r) data2) by (repeat constructor).
  destruct (hash_split_stable Zlib.crc32 (1 # 5) H1 H2)
    as (train1 & test1 & train2 & test2 & Hs1 & Hs2 & Hsame & _).
  split; [exact H1|]. split; [exact H2|].
  exists train1, test1, train2, test2.
  split; [exact Hs1|]. split; [exact Hs2|]. split.
  - apply (Hsame (2, 2) (1, 2)); simpl; tauto.
  - apply (Hsame (0, 0) (3, 0)); simpl; tauto.
Defined.

(** C6, amended.  For every table of N rows, every drawn permutation and
    every binary64 ratio whose product with N, rounded to binary64 as
    the code computes it, is finite and not negative, the random split
    returns as test table the rows at the first [floor p] positions of
    the permutation, [p] being that rounded product, and as train table
    the rows at the remaining positions; a product that is not integral
    is floored.  (A negative product is truncated toward zero and counts
    from the end of the permutation, and the hash-based split computes no
    size at all: see the counterexample.) *)
Theorem random_split_takes_floor :
  forall (Row : Type) (data : DataFrame Row) (test_ratio : Float64.float64)
         (shuffled : list nat),
    Permutation shuffled (seq 0 (length data)) ->
    let product :=
      Float64.mul (Float64.of_Z (Z.of_nat (length data))) test_ratio in
    Float64.is_nonneg product = true ->
    let k := Z.to_nat (Qfloor (Float64.to_Q product)) in
    exists train test,
      split_train_test shuffled data test_ratio = Some (train, test) /\
      rows_at data (firstn k shuffled) test /\
      rows_at data (skipn k shuffled) train /\
      length test = Nat.min k (length data) /\
      (length train + length test = length data)%nat.
Proof.
  intros Row data test_ratio shuffled Hp product Hnn k.
  destruct (int_floor _ Hnn) as [Hint H0]. fold k in H0.
  assert (Hlen : length shuffled = length data).
  { rewrite (Permutation_length Hp). apply length_seq. }
  destruct (@split_train_test_at Row shuffled data test_ratio _
              (Nat.min k (length shuffled)) Hp Hint)
    as (train & test & Hs & Hte & Htr & Hperm).
  { apply slice_bound_nonneg. exact H0. }
  rewrite firstn_clamp in Hte. rewrite skipn_clamp in Htr.
  apply iloc_rows_at in Hte, Htr.
  exists train, test. split; [exact Hs|]. split; [exact Hte|].
  split; [exact Htr|]. split.
  - rewrite <- (Forall2_length Hte), length_firstn, Hlen. reflexivity.
  - rewrite <- (Permutation_length Hperm). symmetry. apply length_app.
Qed.

(** Five rows at the ratio 0.6: the binary64 product is 3.0 (the exact
    product of 5 and the binary64 value of 0.6 is just below 3), and the
    test table is the rows at the first three positions. *)
Lemma random_split_takes_floor_witness :
  let data : DataFrame Z := [(0, 10); (1, 11); (2, 12); (3, 13); (4, 14)] in
  let ratio := Float64.div (Float64.of_Z 3) (Float64.of_Z 5) in
  Permutation [2; 0; 1; 3; 4]%nat (seq 0 (length data)) /\
  Float64.is_nonneg
    (Float64.mul (Float64.of_Z (Z.of_nat (length data))) ratio) = true /\
  Float64.mul (Float64.of_Z (Z.of_nat (length data))) ratio = Float64.of_Z 3 /\
  exists train test,
    split_train_test [2; 0; 1; 3; 4]%nat data ratio = Some (train, test) /\
    rows_at data [2; 0; 1]%nat test /\
    rows_at data [3; 4]%nat train /\
    length test = 3%nat /\
    (length train + length test = 5)%nat.
Proof.
  intros data ratio.
  assert (Hp : Permutation [2; 0; 1; 3; 4]%nat (seq 0 (length data))).
  { simpl. apply Permutation_sym.
    apply (@Permutation_cons_app nat _ [2%nat] [1; 3; 4]%nat 0%nat).
    apply (@Permutation_cons_app nat _ [2%nat] [3; 4]%nat 1%nat).
    apply Permutation_refl. }
  assert (Hnn : Float64.is_nonneg
                  (Float64.mul (Float64.of_Z (Z.of_nat (length data))) ratio)
                = true) by reflexivity.
  split; [exact Hp|]. split; [exact Hnn|]. split; [reflexivity|].
  exact (@random_split_takes_floor Z data ratio _ Hp Hnn).
Defined.

(** C6 as stated fails.  At the ratio 0.6 on five rows the product of 5
    and the binary64 value of 0.6 is just below 3 and its floor is 2; the
    code rounds the product to 3.0 and takes three test rows.  At the
    ratio -0.5 the product is -2.5, whose floor is -3; [int] truncates
    it to -2 and the test table is the first three rows of the
    permutation.  And the flooring is not shared by the strategies: the
    hash-based split of six rows at 0.2 puts two rows in the test table,
    where [floor (6 * 0.2)] is 1. *)
Lemma test_size_is_not_always_the_floor :
  let data5 : DataFrame Z := [(0, 10); (1, 11); (2, 12); (3, 13); (4, 14)] in
  let data6 : DataFrame Z := [(0, 0); (1, 1); (2, 2); (3, 3); (4, 4); (5, 5)] in
  let three_fifths := Float64.div (Float64.of_Z 3) (Float64.of_Z 5) in
  let minus_half :=
    Float64.opp (Float64.div (Float64.of_Z 1) (Float64.of_Z 2)) in
  Qfloor (inject_Z 5 * Float64.to_Q three_fifths) = 2 /\
  split_train_test [2; 0; 1; 3; 4]%nat data5 three_fifths
  = Some ([(3, 13); (4, 14)], [(2, 12); (0, 10); (1, 11)]) /\
  Qfloor (Float64.to_Q (Float64.mul (Float64.of_Z 5) minus_half)) = -3 /\
  split_train_test [2; 0; 1; 3; 4]%nat data5 minus_half
  = Some ([(3, 13); (4, 14)], [(2, 12); (0, 10); (1, 11)]) /\
  Qfloor (inject_Z 6 * (1 # 5)) = 1 /\
  split_train_test_by_id Zlib.crc32 data6 (1 # 5) (fun r => r)
  = Some ([(0, 0); (1, 1); (3, 3); (4, 4)], [(2, 2); (5, 5)]).
Proof.
  intros data5 data6 three_fifths minus_half.
  split; [vm_compute; reflexivity|]. split; [reflexivity|].
  split; [reflexivity|]. split; [reflexivity|]. split; [reflexivity|].
  vm_compute. reflexivity.
Qed.

(* ================================================================= *)
(** * The attribute adder *)

Lemma mapM_None (A B : Type) (f : A -> option B) (l : list A) :
  Err.mapM f l = None <-> Exists (fun a => f a = None) l.
Proof.
  induction l as [|a l IH]; simpl.
  - split; [discriminate|]. intros H. inversion H.
  - destruct (f a) as [b|] eqn:E.
    + destruct (Err.mapM f l) as [bs|].
      * split; [discriminate|]. intros H.
        inversion H as [? ? H0|? ? H0]; subst; [congruence|].
        apply IH in H0. discriminate.
      * split; [|reflexivity]. intros _. apply Exists_cons_tl.
        apply IH. reflexivity.
    + split; [|reflexivity]. intros _. apply Exists_cons_hd. exact E.
Qed.

Section AdderFacts.

Variable F : Type.
Variable div : F -> F -> option F.
Implicit Types X Y : ndarray F.

Lemma column_cells X (j : nat) :
  well_shaped X -> (j < ncols X)%nat ->
  exists c, column X j = Some c /\
            Forall2 (fun r x => nth_error r j = Some x) (rows X) c.
Proof.
  intros Hw Hj. unfold column.
  apply Nat.ltb_lt in Hj as Hb. rewrite Hb.
  destruct (@mapM_total _ _ (fun r : list F => nth_error r j) (rows X))
    as [c Hc].
  - eapply Forall_impl; [|exact Hw]. intros r Hr. simpl in Hr.
    destruct (nth_error r j) as [x|] eqn:E; [exists x; reflexivity|].
    apply nth_error_None in E. lia.
  - exists c. split; [exact Hc|]. apply mapM_Forall2. exact Hc.
Qed.

(** The column-wise computation of [transform], read row by row: the
    three divisions of whole columns and the stacking return the rows
    that [extend_row] returns, and raise when it raises on a row. *)
Lemma stack_rows (b : bool) (rs : list (list F)) (c3 c4 c5 c6 : list F) :
  Forall2 (fun r x => nth_error r rooms_ix = Some x) rs c3 ->
  Forall2 (fun r x => nth_error r bedroom_ix = Some x) rs c4 ->
  Forall2 (fun r x => nth_error r population_ix = Some x) rs c5 ->
  Forall2 (fun r x => nth_error r households_ix = Some x) rs c6 ->
  (q1 <- truediv div c3 c6 ;;
   q2 <- truediv div c5 c6 ;;
   if b
   then q3 <- truediv div c4 c3 ;;
        rs1 <- append_column rs q1 ;;
        rs2 <- append_column rs1 q2 ;;
        append_column rs2 q3
   else rs1 <- append_column rs q1 ;;
        append_column rs1 q2)
  = Err.mapM (extend_row div b) rs.
Proof.
  intros H3. revert c4 c5 c6.
  induction H3 as [|r x3 rs c3 E3 _ IH]; intros c4 c5 c6 H4 H5 H6.
  - inversion H4; inversion H5; inversion H6; subst.
    destruct b; reflexivity.
  - inversion H4 as [|? x4 ? c4' E4 H4']; subst.
    inversion H5 as [|? x5 ? c5' E5 H5']; subst.
    inversion H6 as [|? x6 ? c6' E6 H6']; subst.
    specialize (IH _ _ _ H4' H5' H6').
    cbn [Err.mapM]. rewrite <- IH. unfold extend_row.
    rewrite E3, E4, E5, E6. cbn [truediv]. unfold Err.bind.
    destruct (div x3 x6) as [q1|], (div x5 x6) as [q2|],
      (div x4 x3) as [q3|], (truediv div c3 c6') as [a1|],
      (truediv div c5' c6') as [a2|], (truediv div c4' c3) as [a3|], b;
      cbn [append_column]; unfold Err.bind; try reflexivity;
      repeat match goal with
             | |- context [append_column ?x ?y] =>
                 destruct (append_column x y); cbn [append_column];
                 unfold Err.bind
             end;
      try reflexivity; rewrite <- ?app_assoc; reflexivity.
Qed.

(** On a rectangular array of seven columns or more, [transform] is
    [extend_row] on every row. *)
Lemma transform_mapM (self : CombinedAttributesAdder) X :
  well_shaped X -> (7 <= ncols X)%nat ->
  transform div self X
  = (ys <- Err.mapM (extend_row div (add_bedrooms_per_room self)) (rows X) ;;
     Some (mk_ndarray
             (ncols X + if add_bedrooms_per_room self then 3 else 2) ys)).
Proof.
  intros Hw Hn. unfold transform.
  destruct (@column_cells X rooms_ix Hw) as (c3 & -> & H3);
    [unfold rooms_ix; lia|].
  destruct (@column_cells X households_ix Hw) as (c6 & -> & H6);
    [unfold households_ix; lia|].
  destruct (@column_cells X population_ix Hw) as (c5 & -> & H5);
    [unfold population_ix; lia|].
  destruct (@column_cells X bedroom_ix Hw) as (c4 & E4 & H4);
    [unfold bedroom_ix; lia|].
  rewrite <- (stack_rows (add_bedrooms_per_room self) H3 H4 H5 H6).
  destruct (add_bedrooms_per_room self);
    [rewrite E4|]; cbn [c_]; unfold Err.bind; cbn [rows ncols];
    destruct (truediv div c3 c6) as [q1|]; try reflexivity;
    destruct (truediv div c5 c6) as [q2|]; try reflexivity;
    try (destruct (truediv div c4 c3) as [q3|]; try reflexivity);
    destruct (append_column (rows X) q1) as [rs1|]; try reflexivity;
    destruct (append_column rs1 q2) as [rs2|]; try reflexivity;
    try (destruct (append_column rs2 q3) as [rs3|]; try reflexivity);
    do 2 f_equal; lia.
Qed.

Lemma transform_too_narrow (self : CombinedAttributesAdder) X :
  (ncols X < 7)%nat -> transform div self X = None.
Proof.
  intros Hn. unfold transform.
  assert (E : column X households_ix = None).
  { unfold column, households_ix.
    destruct (6 <? ncols X)%nat eqn:E; [|reflexivity].
    apply Nat.ltb_lt in E. lia. }
  destruct (column X rooms_ix); simpl; [|reflexivity].
  rewrite E. reflexivity.
Qed.

Lemma extended_row_extend (b : bool) (r y : list F) :
  extended_row div b r y <-> extend_row div b r = Some y.
Proof.
  unfold extended_row, extend_row. split.
  - intros (x3 & x4 & x5 & x6 & q1 & q2 & -> & -> & -> & -> & E1 & E2 & H).
    cbn [Err.bind]. rewrite E1, E2. cbn [Err.bind].
    destruct b.
    + destruct H as (q3 & -> & ->). reflexivity.
    + rewrite H. reflexivity.
  - intros H.
    destruct (nth_error r rooms_ix) as [x3|]; [|discriminate].
    destruct (nth_error r bedroom_ix) as [x4|]; [|discriminate].
    destruct (nth_error r population_ix) as [x5|]; [|discriminate].
    destruct (nth_error r households_ix) as [x6|]; [|discriminate].
    cbn [Err.bind] in H.
    destruct (div x3 x6) as [q1|] eqn:E1; [|discriminate].
    destruct (div x5 x6) as [q2|] eqn:E2; [|discriminate].
    cbn [Err.bind] in H.
    exists x3, x4, x5, x6, q1, q2.
    do 4 (split; [reflexivity|]). split; [exact E1|]. split; [exact E2|].
    destruct b.
    + destruct (div x4 x3) as [q3|]; [|discriminate].
      cbn [Err.bind] in H. injection H as <-. exists q3. split; reflexivity.
    + injection H as <-. reflexivity.
Qed.

(** On a row of seven cells or more, [extend_row] raises exactly when
    one of the divisions does. *)
Lemma extend_row_raises (b : bool) (r : list F) :
  (7 <= length r)%nat ->
  extend_row div b r = None <-> row_raises div b r.
Proof.
  intros Hlen. unfold extend_row, row_raises.
  assert (Hc : forall j, (j < 7)%nat -> exists x, nth_error r j = Some x).
  { intros j Hj. destruct (nth_error r j) as [x|] eqn:E; [eauto|].
    apply nth_error_None in E. lia. }
  destruct (Hc rooms_ix) as [x3 E3]; [unfold rooms_ix; lia|].
  destruct (Hc bedroom_ix) as [x4 E4]; [unfold bedroom_ix; lia|].
  destruct (Hc population_ix) as [x5 E5]; [unfold population_ix; lia|].
  destruct (Hc households_ix) as [x6 E6]; [unfold households_ix; lia|].
  rewrite E3, E4, E5, E6. cbn [Err.bind]. split.
  - intros H. exists x3, x4, x5, x6. repeat split; try reflexivity.
    destruct (div x3 x6) as [q1|]; [|left; reflexivity].
    destruct (div x5 x6) as [q2|]; [|right; left; reflexivity].
    cbn [Err.bind] in H. destruct b; [|discriminate].
    destruct (div x4 x3) as [q3|]; [discriminate|].
    right; right. split; reflexivity.
  - intros (y3 & y4 & y5 & y6 & G3 & G4 & G5 & G6 & H).
    injection G3 as <-. injection G4 as <-.
    injection G5 as <-. injection G6 as <-.
    destruct H as [-> | [H | [-> H]]]; [reflexivity| |].
    + rewrite H. destruct (div x3 x6); reflexivity.
    + rewrite H. destruct (div x3 x6), (div x5 x6); reflexivity.
Qed.

Lemma extended_row_length (b : bool) (n : nat) (rs ys : list (list F)) :
  Forall (fun r => length r = n) rs ->
  Forall2 (extended_row div b) rs ys ->
  Forall (fun y => length y = (n + if b then 3 else 2)%nat) ys.
Proof.
  intros Hn H. induction H as [|r y rs ys Hy _ IH]; [constructor|].
  inversion Hn as [|? ? Hr Hrs]; subst. constructor; [|apply IH; exact Hrs].
  destruct Hy as (x3 & x4 & x5 & x6 & q1 & q2 & _ & _ & _ & _ & _ & _ & Hy).
  destruct b.
  - destruct Hy as (q3 & _ & ->). rewrite length_app. simpl. lia.
  - rewrite Hy, length_app. simpl. lia.
Qed.

(** What [transform] returns, when it returns. *)
Lemma transform_returns (self : CombinedAttributesAdder) X Y :
  well_shaped X -> (7 <= ncols X)%nat ->
  transform div self X = Some Y ->
  ncols Y = (ncols X + if add_bedrooms_per_room self then 3 else 2)%nat /\
  well_shaped Y /\
  length (rows Y) = length (rows X) /\
  Forall2 (extended_row div (add_bedrooms_per_room self)) (rows X) (rows Y).
Proof.
  intros Hw Hn H. rewrite (transform_mapM self Hw Hn) in H.
  destruct (Err.mapM (extend_row div (add_bedrooms_per_room self)) (rows X))
    as [ys|] eqn:E; [|discriminate].
  cbn [Err.bind] in H. injection H as <-. cbn [ncols rows].
  assert (Hrows : Forall2 (extended_row div (add_bedrooms_per_room self))
                          (rows X) ys).
  { apply mapM_Forall2 in E. eapply Forall2_impl; [|exact E].
    intros r y. apply extended_row_extend. }
  split; [reflexivity|]. split; [|split].
  - unfold well_shaped. cbn [ncols rows].
    eapply extended_row_length; [exact Hw|exact Hrows].
  - symmetry. eapply Forall2_length. exact Hrows.
  - exact Hrows.
Qed.

(** When [transform] raises on an array that is wide enough. *)
Lemma transform_raises (self : CombinedAttributesAdder) X :
  well_shaped X -> (7 <= ncols X)%nat ->
  transform div self X = None <->
  Exists (row_raises div (add_bedrooms_per_room self)) (rows X).
Proof.
  intros Hw Hn. rewrite (transform_mapM self Hw Hn).
  assert (Hiff : Err.mapM (extend_row div (add_bedrooms_per_room self)) (rows X)
                 = None
                 <-> Exists (row_raises div (add_bedrooms_per_room self))
                            (rows X)).
  { rewrite mapM_None. rewrite !Exists_exists. unfold well_shaped in Hw.
    rewrite Forall_forall in Hw.
    split; intros (r & Hr & H); exists r; (split; [exact Hr|]);
      apply (@extend_row_raises _ r); try exact H;
      rewrite (Hw r Hr); exact Hn. }
  rewrite <- Hiff.
  destruct (Err.mapM (extend_row div (add_bedrooms_per_room self)) (rows X));
    cbn [Err.bind]; split; intros H; try discriminate; reflexivity.
Qed.

(** A division that never raises: [transform] returns. *)
Lemma transform_never_raises (self : CombinedAttributesAdder) X :
  (forall x y, div x y <> None) ->
  well_shaped X -> (7 <= ncols X)%nat ->
  exists Y, transform div self X = Some Y.
Proof.
  intros Hdiv Hw Hn.
  destruct (transform div self X) as [Y|] eqn:E; [eauto|].
  apply (transform_raises self Hw Hn) in E.
  apply Exists_exists in E.
  destruct E as (r & _ & x3 & x4 & x5 & x6 & _ & _ & _ & _ & H).
  exfalso. destruct H as [H | [H | [_ H]]]; exact (Hdiv _ _ H).
Qed.

End AdderFacts.

Lemma Forall2_with_left (A B : Type) (P : A -> Prop) (R : A -> B -> Prop)
    (l : list A) (l' : list B) :
  Forall P l -> Forall2 R l l' -> Forall2 (fun a b => P a /\ R a b) l l'.
Proof.
  intros HP HR. induction HR as [|a b l l' Hab _ IH]; [constructor|].
  inversion HP; subst. constructor; auto.
Qed.

(** The same, for a division that never raises. *)
Section AdderTotal.

Variable F : Type.
Variable div : F -> F -> F.
Implicit Types X Y : ndarray F.

Lemma total_never_raises (x y : F) : total div x y <> None.
Proof. discriminate. Qed.

(** The cells [extend_row] appends, read off the row. *)
Lemma extend_row_cells (b : bool) (r y : list F) :
  extend_row (total div) b r = Some y ->
  exists x3 x4 x5 x6,
    nth_error r rooms_ix = Some x3 /\
    nth_error r bedroom_ix = Some x4 /\
    nth_error r population_ix = Some x5 /\
    nth_error r households_ix = Some x6 /\
    y = r ++ [div x3 x6; div x5 x6] ++ (if b then [div x4 x3] else []).
Proof.
  unfold extend_row, total. intros H.
  destruct (nth_error r rooms_ix) as [x3|]; [|discriminate].
  destruct (nth_error r bedroom_ix) as [x4|]; [|discriminate].
  destruct (nth_error r population_ix) as [x5|]; [|discriminate].
  destruct (nth_error r households_ix) as [x6|]; [|discriminate].
  cbn [Err.bind] in H. exists x3, x4, x5, x6.
  repeat split; try reflexivity.
  destruct b; injection H as <-; reflexivity.
Qed.

Lemma extended_row_cells (b : bool) (r y : list F) :
  extended_row (total div) b r y ->
  exists x3 x4 x5 x6,
    nth_error r rooms_ix = Some x3 /\
    nth_error r bedroom_ix = Some x4 /\
    nth_error r population_ix = Some x5 /\
    nth_error r households_ix = Some x6 /\
    y = r ++ [div x3 x6; div x5 x6] ++ (if b then [div x4 x3] else []).
Proof.
  intros H. apply extended_row_extend in H. apply extend_row_cells. exact H.
Qed.

(** What [transform] returns on an array with seven columns or more. *)
Lemma transform_rows (self : CombinedAttributesAdder) X :
  well_shaped X -> (7 <= ncols X)%nat ->
  exists Y,
    transform (total div) self X = Some Y /\
    ncols Y = (ncols X + if add_bedrooms_per_room self then 3 else 2)%nat /\
    Forall2 (extended_row (total div) (add_bedrooms_per_room self))
            (rows X) (rows Y).
Proof.
  intros Hw Hn.
  destruct (@transform_never_raises F (total div) self X total_never_raises
              Hw Hn) as [Y HY].
  exists Y. split; [exact HY|].
  destruct (@transform_returns F (total div) self X Y Hw Hn HY)
    as (Hc & _ & _ & Hrows).
  split; assumption.
Qed.

Lemma transform_rowwise (self : CombinedAttributesAdder) X :
  well_shaped X -> (7 <= ncols X)%nat ->
  exists ys,
    Err.mapM (extend_row (total div) (add_bedrooms_per_room self)) (rows X)
    = Some ys /\
    transform (total div) self X
    = Some (mk_ndarray
              (ncols X + if add_bedrooms_per_room self then 3 else 2) ys).
Proof.
  intros Hw Hn.
  destruct (transform_rows self Hw Hn) as ([n ys] & HY & Hc & Hrows).
  simpl in Hc, Hrows. subst n. exists ys. split; [|exact HY].
  apply mapM_Forall2. eapply Forall2_impl; [|exact Hrows].
  intros r y. apply extended_row_extend.
Qed.

End AdderTotal.

(** C10, amended.  For every rectangular array X with at least seven
    columns, [transform] returns when no division of two cells raises,
    and raises when one does.  It never raises on an array of binary64
    cells; it does on an object array, where a zero denominator or a
    string cell at one of the positions read raises.  The returned array
    has the rows of X, unchanged, followed by X[:,3]/X[:,6] and
    X[:,5]/X[:,6], and by X[:,4]/X[:,3] when [add_bedrooms_per_room] is
    set: two or three columns more than X.  The positions 3, 4, 5, 6 are
    fixed.  [fit] returns the adder as it is, and a [fit] call changes
    nothing in what [transform] returns. *)
Theorem adder_appends_ratio_columns :
  forall (F : Type) (div : F -> F -> option F)
         (self : CombinedAttributesAdder) (X : ndarray F),
    well_shaped X ->
    (7 <= ncols X)%nat ->
    (Forall (fun r => ~ row_raises div (add_bedrooms_per_room self) r)
            (rows X) ->
     exists Y,
       transform div self X = Some Y /\
       ncols Y = (ncols X + if add_bedrooms_per_room self then 3 else 2)%nat /\
       well_shaped Y /\
       length (rows Y) = length (rows X) /\
       Forall2 (extended_row div (add_bedrooms_per_room self))
               (rows X) (rows Y)) /\
    (Exists (row_raises div (add_bedrooms_per_room self)) (rows X) ->
     transform div self X = None) /\
    ((forall x y, div x y <> None) ->
     exists Y, transform div self X = Some Y) /\
    (forall X' : ndarray F,
        fit self X' = self /\
        transform div (fit self X') X = transform div self X).
Proof.
  intros F div self X Hw Hn. split; [|split; [|split]].
  - intros Hok.
    destruct (transform div self X) as [Y|] eqn:E.
    + exists Y. split; [reflexivity|].
      exact (@transform_returns F div self X Y Hw Hn E).
    + exfalso. apply (@transform_raises F div self X Hw Hn) in E.
      apply Exists_exists in E. destruct E as (r & Hr & Hraise).
      rewrite Forall_forall in Hok. exact (Hok r Hr Hraise).
  - apply (@transform_raises F div self X Hw Hn).
  - intros Hdiv. exact (@transform_never_raises F div self X Hdiv Hw Hn).
  - intros X'. split; reflexivity.
Qed.

(** An object array shaped as [housing.values]: eight float cells and a
    string in every row. *)
Lemma adder_appends_ratio_columns_witness :
  let f := fun z => PyObject.PyFloat (Float64.of_Z z) in
  let X := mk_ndarray 9
             [[f 1; f 2; f 3; f 12; f 4; f 6; f 2; f 5;
               PyObject.PyStr "INLAND"%string];
              [f 0; f 0; f 0; f 9; f 3; f 6; f 3; f 7;
               PyObject.PyStr "NEAR BAY"%string]] in
  well_shaped X /\
  (7 <= ncols X)%nat /\
  Forall (fun r => ~ row_raises PyObject.truediv true r) (rows X) /\
  exists Y,
    transform PyObject.truediv init_default X = Some Y /\
    ncols Y = 12%nat /\
    well_shaped Y /\
    length (rows Y) = 2%nat /\
    Forall2 (extended_row PyObject.truediv true) (rows X) (rows Y).
Proof.
  intros f X.
  assert (Hw : well_shaped X) by (repeat constructor).
  assert (Hn : (7 <= ncols X)%nat) by (simpl; lia).
  assert (Hok : Forall (fun r => ~ row_raises PyObject.truediv true r)
                       (rows X)).
  { repeat constructor; intros H;
      apply extend_row_raises in H; try (simpl; lia);
      vm_compute in H; discriminate H. }
  split; [exact Hw|]. split; [exact Hn|]. split; [exact Hok|].
  exact (proj1 (adder_appends_ratio_columns PyObject.truediv init_default
                  Hw Hn) Hok).
Defined.

(** C10 as stated fails on an object array with seven columns or more:
    a string cell at position 6 makes the first division raise, and so
    does a zero there; with [add_bedrooms_per_room] set, a zero at
    position 3 makes the third division raise, where the adder without
    the flag returns. *)
Lemma adder_raises_on_object_array :
  let f := fun z => PyObject.PyFloat (Float64.of_Z z) in
  let text := mk_ndarray 7 [[f 1; f 2; f 3; f 12; f 4; f 6;
                             PyObject.PyStr "INLAND"%string]] in
  let no_household := mk_ndarray 7 [[f 1; f 2; f 3; f 12; f 4; f 6; f 0]] in
  let no_room := mk_ndarray 7 [[f 1; f 2; f 3; f 0; f 4; f 6; f 2]] in
  well_shaped text /\ well_shaped no_household /\ well_shaped no_room /\
  transform PyObject.truediv init_default text = None /\
  transform PyObject.truediv init_default no_household = None /\
  transform PyObject.truediv init_default no_room = None /\
  transform PyObject.truediv (Build_CombinedAttributesAdder false) no_room
  = Some (mk_ndarray 9
            [[f 1; f 2; f 3; f 0; f 4; f 6; f 2;
              PyObject.PyFloat (S754_zero false); f 3]]).
Proof.
  intros f text no_household no_room.
  split; [repeat constructor|]. split; [repeat constructor|].
  split; [repeat constructor|].
  split; [reflexivity|]. split; [reflexivity|]. split; [reflexivity|].
  vm_compute. reflexivity.
Qed.

(** An array of rationals, run, with and without the third ratio. *)
Example transform_two_rows :
  let X := mk_ndarray 7 [[1; 2; 3; 12; 4; 6; 2]; [0; 0; 0; 9; 3; 6; 3]]%Q in
  transform (total Qdiv) init_default X
  = Some (mk_ndarray 10
            [[1; 2; 3; 12; 4; 6; 2; 12 / 2; 6 / 2; 4 / 12];
             [0; 0; 0; 9; 3; 6; 3; 9 / 3; 6 / 3; 3 / 9]]%Q) /\
  transform (total Qdiv) (Build_CombinedAttributesAdder false) X
  = Some (mk_ndarray 9
            [[1; 2; 3; 12; 4; 6; 2; 12 / 2; 6 / 2];
             [0; 0; 0; 9; 3; 6; 3; 9 / 3; 6 / 3]]%Q).
Proof. split; reflexivity. Qed.

(** Fewer than seven columns: selecting column 6 raises. *)
Example transform_six_columns :
  transform (total Qdiv) init_default (mk_ndarray 6 [[1; 2; 3; 12; 4; 6]]%Q)
  = None.
Proof. reflexivity. Qed.

(** ** Division by zero *)

Lemma div_by_zero (x : Float64.float64) (s : bool) :
  let q := Float64.div x (S754_zero s) in
  Float64.is_nan q = Float64.is_zero x || Float64.is_nan x /\
  Float64.is_inf q = negb (Float64.is_zero x || Float64.is_nan x).
Proof.
  destruct x; simpl; split; reflexivity.
Qed.

Lemma div_by_zero_cell (x : Float64.float64) (s : bool) :
  let q := Float64.div x (S754_zero s) in
  Float64.is_inf q || Float64.is_nan q = true /\
  Float64.is_nan q = Float64.is_zero x || Float64.is_nan x.
Proof.
  intros q. destruct (div_by_zero x s) as [Hnan Hinf]. fold q in Hnan, Hinf.
  split; [|exact Hnan]. rewrite Hnan, Hinf. apply orb_negb_l.
Qed.

Lemma object_div_by_zero (x : PyObject.object) (s : bool) :
  PyObject.truediv x (PyObject.PyFloat (S754_zero s)) = None.
Proof. destruct x; reflexivity. Qed.

Lemma nth_error_appended (A : Type) (r e : list A) (k : nat) :
  nth_error (r ++ e) (k + length r) = nth_error e k.
Proof.
  rewrite nth_error_app2 by lia. f_equal. lia.
Qed.

(** C5, amended.  Each derived attribute is the cell-by-cell ratio of two
    numeric columns.  On binary64 cells, where the denominator cell is a
    zero the ratio is an IEEE 754 infinity, or NaN when the numerator is
    a zero too (or is NaN itself), and no exception is raised: the three
    pandas Series of lines 136-138 and the float64 array returned by
    [transform] hold that value as a cell, in every one of the ratios.
    On an object array, as [housing.values] at line 230, a zero
    denominator raises instead, and [transform] returns nothing. *)
Theorem ratio_by_zero_is_inf_or_nan :
  (forall (x : Float64.float64) (s : bool),
      let q := Float64.div x (S754_zero s) in
      Float64.is_inf q || Float64.is_nan q = true /\
      Float64.is_nan q = Float64.is_zero x || Float64.is_nan x) /\
  (forall (Row : Type)
          (total_rooms total_bedrooms population households
           : Row -> Float64.float64)
          (housing : DataFrame Row) (i : nat) (r : Z * Row),
      nth_error housing i = Some r ->
      let q1 := Float64.div (total_rooms (snd r)) (households (snd r)) in
      let q2 := Float64.div (total_bedrooms (snd r)) (total_rooms (snd r)) in
      let q3 := Float64.div (population (snd r)) (households (snd r)) in
      nth_error (rooms_per_household Float64.div total_rooms households
                   housing) i = Some (fst r, q1) /\
      nth_error (bedrooms_per_room Float64.div total_rooms total_bedrooms
                   housing) i = Some (fst r, q2) /\
      nth_error (population_per_household Float64.div population households
                   housing) i = Some (fst r, q3) /\
      (Float64.is_zero (households (snd r)) = true ->
       Float64.is_inf q1 || Float64.is_nan q1 = true /\
       Float64.is_inf q3 || Float64.is_nan q3 = true) /\
      (Float64.is_zero (total_rooms (snd r)) = true ->
       Float64.is_inf q2 || Float64.is_nan q2 = true)) /\
  (forall (self : CombinedAttributesAdder) (X : ndarray Float64.float64),
      well_shaped X ->
      (7 <= ncols X)%nat ->
      exists Y,
        transform Float64.truediv self X = Some Y /\
        Forall2
          (fun r y =>
             extended_row Float64.truediv (add_bedrooms_per_room self) r y /\
             (forall s, nth_error r households_ix = Some (S754_zero s) ->
                exists q1 q2,
                  nth_error y (ncols X) = Some q1 /\
                  nth_error y (S (ncols X)) = Some q2 /\
                  Float64.is_inf q1 || Float64.is_nan q1 = true /\
                  Float64.is_inf q2 || Float64.is_nan q2 = true) /\
             (add_bedrooms_per_room self = true ->
              forall s, nth_error r rooms_ix = Some (S754_zero s) ->
                exists q3,
                  nth_error y (S (S (ncols X))) = Some q3 /\
                  Float64.is_inf q3 || Float64.is_nan q3 = true))
          (rows X) (rows Y)) /\
  (forall (self : CombinedAttributesAdder) (X : ndarray PyObject.object),
      well_shaped X ->
      (7 <= ncols X)%nat ->
      Exists
        (fun r =>
           exists s,
             nth_error r households_ix
             = Some (PyObject.PyFloat (S754_zero s)) \/
             (add_bedrooms_per_room self = true /\
              nth_error r rooms_ix = Some (PyObject.PyFloat (S754_zero s))))
        (rows X) ->
      transform PyObject.truediv self X = None).
Proof.
  assert (Hzero : forall y : Float64.float64,
             Float64.is_zero y = true -> exists s, y = S754_zero s).
  { intros [s| | |] H; try discriminate. exists s. reflexivity. }
  split; [exact div_by_zero_cell|]. split; [|split].
  - intros Row total_rooms total_bedrooms population households housing i r
           Hr q1 q2 q3.
    unfold rooms_per_household, bedrooms_per_room, population_per_household.
    rewrite !nth_error_map, Hr. cbn [option_map].
    split; [reflexivity|]. split; [reflexivity|]. split; [reflexivity|].
    split.
    + intros Hz. destruct (Hzero _ Hz) as [s Hs]. unfold q1, q3.
      rewrite Hs. split; apply div_by_zero_cell.
    + intros Hz. destruct (Hzero _ Hz) as [s Hs]. unfold q2.
      rewrite Hs. apply div_by_zero_cell.
  - intros self X Hw Hn.
    destruct (transform_rows Float64.div self Hw Hn) as (Y & HY & _ & Hrows).
    exists Y. split; [exact HY|].
    eapply Forall2_impl; [|exact (Forall2_with_left Hw Hrows)].
    intros r y [Hlen Hy]. cbn beta in Hlen. split; [exact Hy|].
    destruct (extended_row_cells Hy)
      as (x3 & x4 & x5 & x6 & E3 & E4 & E5 & E6 & ->).
    unfold Float64.float64 in *. rewrite <- Hlen.
    rewrite (nth_error_appended r _ 0), (nth_error_appended r _ 1),
      (nth_error_appended r _ 2).
    split.
    + intros s Hs. rewrite E6 in Hs. injection Hs as ->.
      exists (Float64.div x3 (S754_zero s)), (Float64.div x5 (S754_zero s)).
      split; [reflexivity|]. split; [reflexivity|].
      split; apply div_by_zero_cell.
    + intros Hflag s Hs. rewrite E3 in Hs. injection Hs as ->.
      rewrite Hflag. exists (Float64.div x4 (S754_zero s)).
      split; [reflexivity|]. apply div_by_zero_cell.
  - intros self X Hw Hn Hex.
    apply (@transform_raises _ PyObject.truediv self X Hw Hn).
    apply Exists_exists in Hex. destruct Hex as (r & Hr & s & Hs).
    apply Exists_exists. exists r. split; [exact Hr|].
    unfold well_shaped in Hw. rewrite Forall_forall in Hw.
    specialize (Hw r Hr).
    assert (Hc : forall j, (j < 7)%nat -> exists x, nth_error r j = Some x).
    { intros j Hj. destruct (nth_error r j) as [x|] eqn:E; [eauto|].
      apply nth_error_None in E. lia. }
    destruct (Hc rooms_ix) as [x3 E3]; [unfold rooms_ix; lia|].
    destruct (Hc bedroom_ix) as [x4 E4]; [unfold bedroom_ix; lia|].
    destruct (Hc population_ix) as [x5 E5]; [unfold population_ix; lia|].
    destruct (Hc households_ix) as [x6 E6]; [unfold households_ix; lia|].
    exists x3, x4, x5, x6. do 4 (split; [assumption|]).
    destruct Hs as [Hs | [Hflag Hs]].
    + left. rewrite E6 in Hs. injection Hs as ->. apply object_div_by_zero.
    + right; right. split; [exact Hflag|].
      rewrite E3 in Hs. injection Hs as ->. apply object_div_by_zero.
Qed.

Lemma ratio_by_zero_is_inf_or_nan_witness :
  let zero := S754_zero false in
  let X := mk_ndarray 7
             [[zero; zero; zero; Float64.of_Z 6; Float64.of_Z 2;
               Float64.of_Z 3; zero];
              [zero; zero; zero; zero; zero; zero; zero]] in
  well_shaped X /\
  (7 <= ncols X)%nat /\
  exists Y,
    transform Float64.truediv init_default X = Some Y /\
    Forall2
      (fun r y =>
         extended_row Float64.truediv true r y /\
         (forall s, nth_error r households_ix = Some (S754_zero s) ->
            exists q1 q2,
              nth_error y (ncols X) = Some q1 /\
              nth_error y (S (ncols X)) = Some q2 /\
              Float64.is_inf q1 || Float64.is_nan q1 = true /\
              Float64.is_inf q2 || Float64.is_nan q2 = true) /\
         (add_bedrooms_per_room init_default = true ->
          forall s, nth_error r rooms_ix = Some (S754_zero s) ->
            exists q3,
              nth_error y (S (S (ncols X))) = Some q3 /\
              Float64.is_inf q3 || Float64.is_nan q3 = true))
      (rows X) (rows Y).
Proof.
  intros zero X.
  assert (Hw : well_shaped X) by (repeat constructor).
  assert (Hn : (7 <= ncols X)%nat) by (simpl; lia).
  split; [exact Hw|]. split; [exact Hn|].
  destruct ratio_by_zero_is_inf_or_nan as (_ & _ & H & _).
  exact (H init_default X Hw Hn).
Defined.

(** C5 as stated fails at line 230, where the adder is given the object
    array [housing.values]: a district with no household makes the
    division raise, and [transform] returns no array at all. *)
Lemma zero_households_raise_on_object_array :
  let f := fun z => PyObject.PyFloat (Float64.of_Z z) in
  let housing_values :=
    mk_ndarray 9
      [[f 1; f 2; f 3; f 12; f 4; f 6; f 2; f 5;
        PyObject.PyStr "INLAND"%string];
       [f 1; f 2; f 3; f 6; f 2; f 3; PyObject.PyFloat (S754_zero false);
        f 5; PyObject.PyStr "ISLAND"%string]] in
  well_shaped housing_values /\
  PyObject.truediv (f 6) (PyObject.PyFloat (S754_zero false)) = None /\
  transform PyObject.truediv (Build_CombinedAttributesAdder false)
            housing_values = None.
Proof.
  intros f housing_values. split; [repeat constructor|].
  split; reflexivity.
Qed.

(** The same districts in a float64 array, run: 6/0 and 3/0 are [+inf],
    0/0 is NaN, and the cells stand in the returned array. *)
Example transform_zero_households :
  let zero := S754_zero false in
  let X := mk_ndarray 7
             [[zero; zero; zero; Float64.of_Z 6; Float64.of_Z 2;
               Float64.of_Z 3; zero];
              [zero; zero; zero; zero; zero; zero; zero]] in
  option_map (fun Y => map (skipn 7) (rows Y))
             (transform Float64.truediv (Build_CombinedAttributesAdder false) X)
  = Some [[S754_infinity false; S754_infinity false];
          [S754_nan; S754_nan]].
Proof. vm_compute. reflexivity. Qed.

(* ================================================================= *)
(** * The income category *)

Lemma Qle_bool_false (x y : Q) : Qle_bool x y = false -> (y < x)%Q.
Proof.
  intros H. apply Qnot_le_lt. intros Hle.
  apply Qle_bool_iff in Hle. congruence.
Qed.

Ltac qbool :=
  repeat match goal with
         | H : Qle_bool _ _ = true |- _ => apply Qle_bool_iff in H
         | H : Qle_bool _ _ = false |- _ => apply Qle_bool_false in H
         end.

Lemma in_range_label (l : Z) (v : Cut.number) :
  Cut.in_range l v = true -> l = 1 \/ l = 2 \/ l = 3 \/ l = 4 \/ l = 5.
Proof.
  unfold Cut.in_range. intros H.
  destruct (nth_error Cut.income_bins (Z.to_nat (l - 1))) as [lo|];
    [|discriminate].
  destruct (nth_error Cut.income_bins (Z.to_nat l)) as [hi|] eqn:Ehi;
    [|discriminate].
  assert (Hlt : (Z.to_nat l < length Cut.income_bins)%nat).
  { apply nth_error_Some. congruence. }
  simpl in Hlt.
  destruct (1 <=? l) eqn:E1; [|discriminate].
  apply Z.leb_le in E1. lia.
Qed.

(** C7, amended.  The income category bins a value into five labelled
    ranges, (0, 1.5], (1.5, 3], (3, 4.5], (4.5, 6] and (6, +inf], which do
    not overlap and cover the values above 0, +infinity included: such a
    value lies in exactly one range and gets that range's label.  A value
    at or below 0 (and so every negative value and -infinity) lies in no
    range and gets no label, as does a missing value. *)
Theorem income_cat_covers_values_above_zero :
  forall v : Cut.number,
    (Cut.ltb (Cut.Fin 0) v = true ->
     exists l,
       Cut.income_cat (Some v) = Some l /\
       1 <= l <= 5 /\
       Cut.in_range l v = true /\
       forall l', Cut.in_range l' v = true -> l' = l) /\
    (Cut.leb v (Cut.Fin 0) = true ->
     Cut.income_cat (Some v) = None /\
     forall l, Cut.in_range l v = false) /\
    Cut.income_cat None = None.
Proof.
  intros v. split; [|split; [|reflexivity]].
  - intros Hpos. destruct v as [|q|].
    + discriminate.
    + unfold Cut.ltb, Cut.leb in Hpos. apply negb_true_iff in Hpos.
      unfold Cut.income_cat, Cut.cut, Cut.income_bins, Cut.searchsorted_left,
        Cut.ltb, Cut.leb.
      rewrite Hpos. simpl negb.
      destruct (Qle_bool q (3 # 2)) eqn:E1; simpl;
        [|destruct (Qle_bool q 3) eqn:E2; simpl;
          [|destruct (Qle_bool q (9 # 2)) eqn:E3; simpl;
            [|destruct (Qle_bool q 6) eqn:E4; simpl]]];
        eexists; (split; [reflexivity|]); (split; [lia|]);
        (split;
         [unfold Cut.in_range, Cut.ltb, Cut.leb; simpl;
          rewrite ?Hpos, ?E1, ?E2, ?E3, ?E4; reflexivity|]);
        intros l' Hl'; destruct (in_range_label _ _ Hl') as [->|[->|[->|[->| ->]]]];
        try reflexivity; exfalso;
        unfold Cut.in_range, Cut.ltb, Cut.leb in Hl'; simpl in Hl';
        rewrite ?Hpos, ?E1, ?E2, ?E3, ?E4 in Hl'; simpl in Hl';
        try discriminate;
        apply andb_prop in Hl'; destruct Hl' as [Ha Hb];
        apply negb_true_iff in Ha; qbool; lra.
    + exists 5. split; [reflexivity|]. split; [lia|]. split; [reflexivity|].
      intros l' Hl'.
      destruct (in_range_label _ _ Hl') as [->|[->|[->|[->| ->]]]];
        try reflexivity; discriminate.
  - intros Hneg. destruct v as [|q|].
    + split; [reflexivity|]. intros l.
      destruct (Cut.in_range l Cut.NegInf) eqn:E; [|reflexivity].
      destruct (in_range_label _ _ E) as [->|[->|[->|[->| ->]]]];
        discriminate.
    + unfold Cut.leb in Hneg. split.
      * unfold Cut.income_cat, Cut.cut, Cut.income_bins, Cut.searchsorted_left,
          Cut.ltb, Cut.leb.
        rewrite Hneg. reflexivity.
      * intros l. destruct (Cut.in_range l (Cut.Fin q)) eqn:E; [|reflexivity].
        exfalso.
        destruct (in_range_label _ _ E) as [->|[->|[->|[->| ->]]]];
          unfold Cut.in_range, Cut.ltb, Cut.leb in E; simpl in E;
          apply andb_prop in E; destruct E as [Ha Hb];
          apply negb_true_iff in Ha; qbool; lra.
    + discriminate.
Qed.

Lemma income_cat_covers_values_above_zero_witness :
  Cut.ltb (Cut.Fin 0) (Cut.Fin (7 # 2)) = true /\
  Cut.leb (Cut.Fin (-1)) (Cut.Fin 0) = true /\
  (exists l,
      Cut.income_cat (Some (Cut.Fin (7 # 2))) = Some l /\
      1 <= l <= 5 /\
      Cut.in_range l (Cut.Fin (7 # 2)) = true /\
      forall l', Cut.in_range l' (Cut.Fin (7 # 2)) = true -> l' = l) /\
  Cut.income_cat (Some (Cut.Fin (-1))) = None.
Proof.
  destruct (income_cat_covers_values_above_zero (Cut.Fin (7 # 2)))
    as [Habove _].
  destruct (income_cat_covers_values_above_zero (Cut.Fin (-1)))
    as (_ & Hbelow & _).
  split; [reflexivity|]. split; [reflexivity|]. split.
  - exact (Habove eq_refl).
  - exact (proj1 (Hbelow eq_refl)).
Defined.

(** C7 as stated fails: the lowest edge is 0, not -infinity, so the
    numeric values -1 and 0 and -infinity are assigned no label. *)
Lemma income_cat_leaves_values_unlabelled :
  Cut.income_cat (Some (Cut.Fin (-1))) = None /\
  Cut.income_cat (Some (Cut.Fin 0)) = None /\
  Cut.income_cat (Some Cut.NegInf) = None /\
  Cut.in_range 1 (Cut.Fin (-1)) = false /\
  Cut.in_range 2 (Cut.Fin (-1)) = false /\
  Cut.in_range 3 (Cut.Fin (-1)) = false /\
  Cut.in_range 4 (Cut.Fin (-1)) = false /\
  Cut.in_range 5 (Cut.Fin (-1)) = false.
Proof. repeat split; reflexivity. Qed.

(* ================================================================= *)
(** * The imputer *)

Section MedianFacts.

Lemma insert_Permutation (x : Q) (l : list Q) :
  Permutation (Imputer.insert x l) (x :: l).
Proof.
  induction l as [|y l IH]; simpl; [reflexivity|].
  destruct (Qle_bool x y); [reflexivity|].
  etransitivity; [apply perm_skip; exact IH|]. apply perm_swap.
Qed.

Lemma sort_Permutation (l : list Q) : Permutation (Imputer.sort l) l.
Proof.
  induction l as [|x l IH]; simpl; [reflexivity|].
  etransitivity; [apply insert_Permutation|]. apply perm_skip. exact IH.
Qed.

Lemma Qle_bool_false_lt (x y : Q) : Qle_bool x y = false -> (y < x)%Q.
Proof.
  intros H. apply Qnot_le_lt. intros Hle.
  apply Qle_bool_iff in Hle. congruence.
Qed.

Lemma insert_sorted (x : Q) (l : list Q) :
  StronglySorted Qle l -> StronglySorted Qle (Imputer.insert x l).
Proof.
  intros Hs. induction Hs as [|y l Hl IH Hy]; simpl.
  - constructor; constructor.
  - destruct (Qle_bool x y) eqn:E.
    + apply Qle_bool_iff in E. constructor; [constructor; assumption|].
      constructor; [exact E|].
      eapply Forall_impl; [|exact Hy]. intros z Hz.
      eapply Qle_trans; eassumption.
    + apply Qle_bool_false_lt in E. constructor; [exact IH|].
      apply Forall_forall. intros z Hz.
      apply (Permutation_in _ (insert_Permutation x l)) in Hz.
      destruct Hz as [<- | Hz]; [apply Qlt_le_weak; exact E|].
      rewrite Forall_forall in Hy. apply Hy. exact Hz.
Qed.

Lemma sort_sorted (l : list Q) : StronglySorted Qle (Imputer.sort l).
Proof.
  induction l as [|x l IH]; simpl; [constructor|].
  apply insert_sorted. exact IH.
Qed.

Lemma sorted_app (s1 s2 : list Q) :
  StronglySorted Qle (s1 ++ s2) ->
  forall x y, In x s1 -> In y s2 -> (x <= y)%Q.
Proof.
  induction s1 as [|a s1 IH]; intros Hs x y Hx Hy; [destruct Hx|].
  simpl in Hs. inversion Hs as [|? ? Hs' Ha]; subst.
  destruct Hx as [<- | Hx].
  - rewrite Forall_forall in Ha. apply Ha. apply in_or_app. right. exact Hy.
  - exact (IH Hs' x y Hx Hy).
Qed.

Lemma filter_all_length (g : Q -> bool) (l : list Q) :
  (forall x, In x l -> g x = true) -> length (filter g l) = length l.
Proof.
  induction l as [|a l IH]; intros H; simpl; [reflexivity|].
  rewrite (H a (or_introl eq_refl)). simpl. rewrite IH; [reflexivity|].
  intros x Hx. apply H. right. exact Hx.
Qed.

Lemma at_most_prefix (m : Q) (s1 s2 : list Q) :
  (forall x, In x s1 -> (x <= m)%Q) ->
  (length s1 <= at_most m (s1 ++ s2))%nat.
Proof.
  intros H. unfold at_most. rewrite filter_app, length_app.
  rewrite filter_all_length; [lia|].
  intros x Hx. apply Qle_bool_iff. apply H. exact Hx.
Qed.

Lemma at_least_suffix (m : Q) (s1 s2 : list Q) :
  (forall x, In x s2 -> (m <= x)%Q) ->
  (length s2 <= at_least m (s1 ++ s2))%nat.
Proof.
  intros H. unfold at_least. rewrite filter_app, length_app.
  rewrite (@filter_all_length _ s2); [lia|].
  intros x Hx. apply Qle_bool_iff. apply H. exact Hx.
Qed.

Lemma is_median_Permutation (s vs : list Q) (m : Q) :
  Permutation s vs -> is_median s m -> is_median vs m.
Proof.
  intros Hp [H1 H2]. unfold is_median, at_most, at_least in *.
  rewrite <- (Permutation_length Hp).
  rewrite <- (Permutation_length (Permutation_filter _ Hp)).
  rewrite <- (Permutation_length (Permutation_filter _ Hp)).
  split; assumption.
Qed.

Lemma half_odd (n : nat) : Nat.odd n = true -> (n = 2 * (n / 2) + 1)%nat.
Proof.
  intros H. rewrite (Nat.div_mod_eq n 2) at 1.
  rewrite <- Nat.bit0_mod, Nat.bit0_odd, H. reflexivity.
Qed.

Lemma half_even (n : nat) : Nat.odd n = false -> (n = 2 * (n / 2))%nat.
Proof.
  intros H. rewrite (Nat.div_mod_eq n 2) at 1.
  rewrite <- Nat.bit0_mod, Nat.bit0_odd, H. simpl. lia.
Qed.

(** The middle of a sorted list that is not empty is a median of it. *)
Lemma middle_is_median (s : list Q) :
  StronglySorted Qle s -> s <> [] ->
  exists v, Imputer.middle s = Some v /\ is_median s v.
Proof.
  intros Hs Hne. unfold Imputer.middle.
  destruct (length s =? 0)%nat eqn:E0.
  { apply Nat.eqb_eq in E0. destruct s; [contradiction|discriminate]. }
  apply Nat.eqb_neq in E0.
  destruct (Nat.odd (length s)) eqn:Eodd.
  - pose proof (half_odd _ Eodd) as Hn.
    remember (length s / 2)%nat as k eqn:Ek in *. clear Ek.
    destruct (nth_error s k) as [v|] eqn:Ev.
    2:{ apply nth_error_None in Ev. lia. }
    exists v. split; [reflexivity|].
    destruct (nth_error_split _ _ Ev) as (s1 & s2 & -> & H1).
    rewrite length_app in Hn. cbn [length] in Hn. split.
    + change (s1 ++ v :: s2) with (s1 ++ [v] ++ s2). rewrite app_assoc.
      etransitivity; [|apply Nat.mul_le_mono_l; apply at_most_prefix].
      * rewrite !length_app. cbn [length]. lia.
      * intros x Hx. apply in_app_or in Hx. destruct Hx as [Hx | [<- | []]].
        -- apply (sorted_app _ _ Hs x v Hx). left. reflexivity.
        -- apply Qle_refl.
    + etransitivity; [|apply Nat.mul_le_mono_l; apply at_least_suffix].
      * rewrite ?length_app. cbn [length]. lia.
      * intros x [<- | Hx]; [apply Qle_refl|].
        apply (@sorted_app (s1 ++ [v]) s2).
        -- rewrite <- app_assoc. exact Hs.
        -- apply in_or_app. right. left. reflexivity.
        -- exact Hx.
  - pose proof (half_even _ Eodd) as Hn.
    remember (length s / 2)%nat as k eqn:Ek in *. clear Ek.
    destruct (nth_error s (k - 1)) as [a|] eqn:Ea.
    2:{ apply nth_error_None in Ea. lia. }
    destruct (nth_error s k) as [b|] eqn:Eb.
    2:{ apply nth_error_None in Eb. lia. }
    exists (Qred ((a + b) / 2)). split; [reflexivity|].
    destruct (nth_error_split _ _ Ea) as (s1 & s2' & Hs1 & H1).
    rewrite Hs1 in Eb. rewrite nth_error_app2 in Eb by lia.
    replace (k - length s1)%nat with 1%nat in Eb by lia.
    destruct s2' as [|b' s2]; [discriminate|]. simpl in Eb.
    injection Eb as ->. subst s.
    rewrite length_app in Hn. cbn [length] in Hn.
    assert (Hab : (a <= b)%Q).
    { apply (@sorted_app (s1 ++ [a]) (b :: s2)).
      - rewrite <- app_assoc. exact Hs.
      - apply in_or_app. right. left. reflexivity.
      - left. reflexivity. }
    assert (Hm : (a <= Qred ((a + b) / 2) /\ Qred ((a + b) / 2) <= b)%Q).
    { rewrite Qred_correct. split.
      - apply Qle_shift_div_l; [reflexivity|]. lra.
      - apply Qle_shift_div_r; [reflexivity|]. lra. }
    destruct Hm as [Hma Hmb]. split.
    + change (s1 ++ a :: b :: s2) with (s1 ++ [a] ++ b :: s2).
      rewrite app_assoc.
      etransitivity; [|apply Nat.mul_le_mono_l; apply at_most_prefix].
      * rewrite !length_app. cbn [length]. lia.
      * intros x Hx. apply Qle_trans with a; [|exact Hma].
        apply in_app_or in Hx. destruct Hx as [Hx | [<- | []]].
        -- apply (sorted_app _ _ Hs x a Hx). left. reflexivity.
        -- apply Qle_refl.
    + change (s1 ++ a :: b :: s2) with (s1 ++ [a] ++ b :: s2).
      rewrite app_assoc.
      etransitivity; [|apply Nat.mul_le_mono_l; apply at_least_suffix].
      * rewrite !length_app. cbn [length]. lia.
      * intros x Hx. apply Qle_trans with b; [exact Hmb|].
        destruct Hx as [<- | Hx]; [apply Qle_refl|].
        apply (@sorted_app ((s1 ++ [a]) ++ [b]) s2).
        -- rewrite <- !app_assoc. exact Hs.
        -- apply in_or_app. right. left. reflexivity.
        -- exact Hx.
Qed.

(** What [fit] learns for a column: the middle of its present values in
    ascending order, which is a median of them. *)
Lemma median_learned (col : list Imputer.cell) :
  middle_of_sorted (Imputer.present col) (Imputer.median col) /\
  (Imputer.present col <> [] ->
   exists v, Imputer.median col = Some v /\
             is_median (Imputer.present col) v) /\
  (Imputer.present col = [] -> Imputer.median col = None).
Proof.
  unfold Imputer.median. split; [|split].
  - exists (Imputer.sort (Imputer.present col)).
    split; [apply sort_Permutation|]. split; [apply sort_sorted|reflexivity].
  - intros Hne.
    destruct (@middle_is_median (Imputer.sort (Imputer.present col)))
      as (v & Hv & Hmed).
    + apply sort_sorted.
    + intros E. apply Hne. apply Permutation_nil.
      rewrite <- E. apply sort_Permutation.
    + exists v. split; [exact Hv|].
      eapply is_median_Permutation; [apply sort_Permutation|exact Hmed].
  - intros ->. reflexivity.
Qed.

End MedianFacts.

Lemma fill_columns_length (stats : list Imputer.cell) (X : Imputer.table) :
  length stats = length X ->
  length (Imputer.fill_columns stats X) = length X.
Proof.
  revert X. induction stats as [|m stats IH]; intros [|col X] H;
    simpl in *; try discriminate; [reflexivity|].
  rewrite IH by lia. reflexivity.
Qed.

Lemma fill_columns_nth (Xfit X : Imputer.table) (j : nat)
    (colfit col : list Imputer.cell) :
  nth_error Xfit j = Some colfit ->
  nth_error X j = Some col ->
  nth_error (Imputer.fill_columns (map Imputer.median Xfit) X) j
  = Some (map (Imputer.fill (Imputer.median colfit)) col).
Proof.
  revert X j. induction Xfit as [|c Xfit IH]; intros X j Hf Hx.
  - destruct j; discriminate.
  - destruct X as [|c' X]; [destruct j; discriminate|].
    destruct j as [|j]; simpl in *.
    + injection Hf as <-. injection Hx as <-. reflexivity.
    + apply IH; assumption.
Qed.

(** C4.  [fit] learns, for every column of the training table, the
    median of the values present in it: the middle of these values in
    ascending order (the mean of the two middle ones when they are even
    in number), a value with at least half of them at or below it and at
    least half at or above it.  Every later [transform], on that table or
    on another one, replaces a missing cell of column j with the median
    learned for column j and leaves every other cell as it is; the
    values of the table being transformed play no part.  Fitting on the
    column [1, NaN, 3] learns 2; the column then imputes to [1, 2, 3],
    and the new column [NaN, 5] to [2, 5], although fitting on it would
    learn 5.  Fitting on [5, NaN, 1, 3] learns 3. *)
Theorem imputer_reuses_learned_median :
  forall (self : Imputer.SimpleImputer) (Xfit X : Imputer.table),
    length X = length Xfit ->
    (exists Y,
        Imputer.transform (Imputer.fit self Xfit) X = Some Y /\
        length Y = length X /\
        forall j colfit col,
          nth_error Xfit j = Some colfit ->
          nth_error X j = Some col ->
          exists learned out,
            middle_of_sorted (Imputer.present colfit) learned /\
            (Imputer.present colfit <> [] ->
             exists v, learned = Some v /\
                       is_median (Imputer.present colfit) v) /\
            nth_error Y j = Some out /\
            Forall2 (fun c y => match c with
                                | Some v => y = Some v
                                | None => y = learned
                                end) col out) /\
    (let fitted := Imputer.fit Imputer.init [[Some 1; None; Some 3]]%Q in
     Imputer.statistics_ fitted = Some [Some 2%Q] /\
     Imputer.transform fitted [[Some 1; None; Some 3]]%Q
     = Some [[Some 1; Some 2; Some 3]]%Q /\
     Imputer.transform fitted [[None; Some 5]]%Q
     = Some [[Some 2; Some 5]]%Q /\
     Imputer.statistics_ (Imputer.fit Imputer.init [[None; Some 5]]%Q)
     = Some [Some 5%Q] /\
     Imputer.transform
       (Imputer.fit Imputer.init [[Some 5; None; Some 1; Some 3]]%Q)
       [[None; Some 7]]%Q
     = Some [[Some 3; Some 7]]%Q).
Proof.
  intros self Xfit X Hlen. split.
  - unfold Imputer.transform. simpl. rewrite length_map, <- Hlen, Nat.eqb_refl.
    eexists. split; [reflexivity|]. split.
    + apply fill_columns_length. rewrite length_map. lia.
    + intros j colfit col Hf Hx.
      rewrite fill_columns_nth with (colfit := colfit) (col := col)
        by assumption.
      destruct (median_learned colfit) as (Hmid & Hmed & _).
      exists (Imputer.median colfit). eexists.
      split; [exact Hmid|]. split; [exact Hmed|]. split; [reflexivity|].
      clear. induction col as [|c col IH]; simpl; constructor; [|exact IH].
      destruct c; reflexivity.
  - repeat split; reflexivity.
Qed.

Lemma imputer_reuses_learned_median_witness :
  let Xfit := [[Some 1; None; Some 3]; [Some 4; Some 8; None; Some 2]]%Q in
  let X := [[None; Some 5]; [None; None]]%Q in
  length X = length Xfit /\
  exists Y,
    Imputer.transform (Imputer.fit Imputer.init Xfit) X = Some Y /\
    length Y = length X /\
    forall j colfit col,
      nth_error Xfit j = Some colfit ->
      nth_error X j = Some col ->
      exists learned out,
        middle_of_sorted (Imputer.present colfit) learned /\
        (Imputer.present colfit <> [] ->
         exists v, learned = Some v /\
                   is_median (Imputer.present colfit) v) /\
        nth_error Y j = Some out /\
        Forall2 (fun c y => match c with
                            | Some v => y = Some v
                            | None => y = learned
                            end) col out.
Proof.
  intros Xfit X.
  assert (Hlen : length X = length Xfit) by reflexivity.
  split; [exact Hlen|].
  exact (proj1 (imputer_reuses_learned_median Imputer.init Xfit X Hlen)).
Defined.

(** The two-column table of the witness, run. *)
Example imputer_two_columns :
  Imputer.transform
    (Imputer.fit Imputer.init
       [[Some 1; None; Some 3]; [Some 4; Some 8; None; Some 2]]%Q)
    [[None; Some 5]; [None; None]]%Q
  = Some [[Some 2; Some 5]; [Some 4; Some 4]]%Q.
Proof. reflexivity. Qed.

(** An imputer that was never fitted has nothing to fill with. *)
Example transform_before_fit :
  Imputer.transform Imputer.init [[None; Some 5%Q]] = None.
Proof. reflexivity. Qed.

(* ================================================================= *)
(** * The scaler *)

Section ScalerFacts.

Local Open Scope R_scope.

Lemma sum_nonneg (l : list R) : Forall (fun x => 0 <= x) l -> 0 <= Scaler.sum l.
Proof.
  induction 1 as [|x l Hx _ IH]; simpl; [apply Rle_refl|]. lra.
Qed.

Lemma sum_zero (l : list R) :
  Forall (fun x => 0 <= x) l -> Scaler.sum l = 0 -> Forall (fun x => x = 0) l.
Proof.
  induction 1 as [|x l Hx Hl IH]; simpl; intros Hsum; [constructor|].
  pose proof (sum_nonneg Hl) as Hpos.
  constructor; [lra|]. apply IH. lra.
Qed.

Lemma sum_of_zeros (l : list R) : Forall (fun x => x = 0) l -> Scaler.sum l = 0.
Proof.
  induction 1 as [|x l Hx _ IH]; simpl; [reflexivity|]. lra.
Qed.

Lemma squares_nonneg (m : R) (col : list R) :
  Forall (fun x => 0 <= x) (map (fun x => (x - m) * (x - m)) col).
Proof.
  apply Forall_forall. intros y Hy. apply in_map_iff in Hy.
  destruct Hy as (x & <- & _). fold (Rsqr (x - m)). apply Rle_0_sqr.
Qed.

Lemma size_positive (col : list R) : col <> [] -> 0 < INR (length col).
Proof.
  intros Hne. apply lt_0_INR. destruct col; [contradiction|simpl; lia].
Qed.

Lemma variance_nonneg (col : list R) : col <> [] -> 0 <= Scaler.variance col.
Proof.
  intros Hne. unfold Scaler.variance, Scaler.mean at 1.
  rewrite length_map. unfold Rdiv. apply Rmult_le_pos.
  - apply sum_nonneg. apply squares_nonneg.
  - left. apply Rinv_0_lt_compat. apply size_positive. exact Hne.
Qed.

(** The variance of a column is zero exactly when every value is the
    mean. *)
Lemma variance_zero (col : list R) :
  col <> [] ->
  Scaler.variance col = 0 <-> Forall (fun x => x = Scaler.mean col) col.
Proof.
  intros Hne. pose proof (size_positive Hne) as Hn.
  unfold Scaler.variance. set (m := Scaler.mean col).
  unfold Scaler.mean at 1. rewrite length_map. split.
  - intros H.
    assert (Hsum : Scaler.sum (map (fun x => (x - m) * (x - m)) col) = 0).
    { unfold Rdiv in H. apply Rmult_integral in H. destruct H as [H|H];
        [exact H|].
      exfalso. revert H. apply Rinv_neq_0_compat. lra. }
    apply sum_zero in Hsum; [|apply squares_nonneg].
    rewrite Forall_map in Hsum.
    eapply Forall_impl; [|exact Hsum]. cbn beta. intros x Hx.
    apply Rmult_integral in Hx. destruct Hx; lra.
  - intros H.
    assert (Hsum : Scaler.sum (map (fun x => (x - m) * (x - m)) col) = 0).
    { apply sum_of_zeros. rewrite Forall_map.
      eapply Forall_impl; [|exact H]. cbn beta. intros x ->. ring. }
    rewrite Hsum. unfold Rdiv. apply Rmult_0_l.
Qed.

Lemma transform_scaled (s : Scaler.StandardScaler) (value : R) :
  Scaler.scale_ s <> 0 ->
  Scaler.transform s value
  = Some ((value - Scaler.mean_ s) / Scaler.scale_ s).
Proof.
  intros Hs. unfold Scaler.transform.
  destruct (Req_dec_T (Scaler.scale_ s) 0); [contradiction|reflexivity].
Qed.

End ScalerFacts.

(** C8.  The scaler fitted on a column learns its mean mu and its
    standard deviation sigma, the square root of its variance (which is
    zero exactly when every value of the column is mu).  When sigma is
    not zero, [transform] outputs [(value - mu) / sigma] for every value;
    the value mu then maps to 0 and the value mu + sigma to 1.  When the
    fit-time standard deviation is zero, [transform] fails for every
    value. *)
Theorem scaler_standardises :
  forall col : list R,
    col <> [] ->
    let s := Scaler.fit col in
    let mu := Scaler.mean col in
    let sigma := Scaler.scale_ s in
    (Scaler.mean_ s = mu /\
     (0 <= sigma)%R /\
     (sigma * sigma)%R = Scaler.variance col /\
     (sigma = 0%R <-> Forall (fun x => x = mu) col)) /\
    (sigma <> 0%R ->
     (forall value,
         Scaler.transform s value = Some ((value - mu) / sigma)%R) /\
     Scaler.transform s mu = Some 0%R /\
     Scaler.transform s (mu + sigma)%R = Some 1%R) /\
    (sigma = 0%R -> forall value, Scaler.transform s value = None).
Proof.
  intros col Hne s mu sigma.
  pose proof (variance_nonneg Hne) as Hvar.
  split; [|split].
  - split; [reflexivity|]. split; [apply sqrt_pos|].
    split; [apply sqrt_sqrt; exact Hvar|].
    unfold sigma, s, Scaler.fit. cbn [Scaler.scale_]. split.
    + intros H. apply (variance_zero Hne).
      apply sqrt_eq_0; [exact Hvar|exact H].
    + intros H. apply (variance_zero Hne) in H. rewrite H. apply sqrt_0.
  - intros Hs.
    assert (Ht : forall value,
               Scaler.transform s value = Some ((value - mu) / sigma)%R).
    { intros value. apply (@transform_scaled s value). exact Hs. }
    split; [exact Ht|]. split.
    + rewrite Ht. f_equal. field. exact Hs.
    + rewrite Ht. f_equal. field. exact Hs.
  - intros Hs value. unfold Scaler.transform.
    destruct (Req_dec_T (Scaler.scale_ s) 0%R) as [_|Hn];
      [reflexivity|contradiction].
Qed.

(** The column [0, 0, 3]: mean 1, variance 2, deviation the square root
    of 2. *)
Lemma scaler_standardises_witness :
  let col := [0; 0; 3]%R in
  let s := Scaler.fit col in
  col <> [] /\
  Scaler.mean col = 1%R /\
  Scaler.variance col = 2%R /\
  Scaler.scale_ s = sqrt 2 /\
  Scaler.scale_ s <> 0%R /\
  Scaler.transform s 1%R = Some 0%R /\
  Scaler.transform s (1 + sqrt 2)%R = Some 1%R.
Proof.
  intros col s.
  assert (Hne : col <> []) by discriminate.
  assert (Hmean : Scaler.mean col = 1%R).
  { unfold Scaler.mean, col. simpl. field. }
  assert (Hvar : Scaler.variance col = 2%R).
  { unfold Scaler.variance. rewrite Hmean.
    unfold Scaler.mean, col. simpl. field. }
  assert (Hscale : Scaler.scale_ s = sqrt 2).
  { unfold s, Scaler.fit. cbn [Scaler.scale_]. rewrite Hvar. reflexivity. }
  assert (Hs : Scaler.scale_ s <> 0%R).
  { rewrite Hscale. intros H. apply sqrt_eq_0 in H; lra. }
  split; [exact Hne|]. split; [exact Hmean|]. split; [exact Hvar|].
  split; [exact Hscale|]. split; [exact Hs|].
  destruct (scaler_standardises Hne) as (_ & H & _).
  destruct (H Hs) as (_ & H0 & H1).
  rewrite Hmean in H0, H1. fold s in H1. rewrite Hscale in H1.
  split; [exact H0|exact H1].
Defined.

(** A constant column has deviation zero, and its scaler fails. *)
Example scaler_on_constant_column :
  Scaler.scale_ (Scaler.fit [2; 2; 2]%R) = 0%R /\
  Scaler.transform (Scaler.fit [2; 2; 2]%R) 2%R = None.
Proof.
  assert (Hs : Scaler.scale_ (Scaler.fit [2; 2; 2]%R) = 0%R).
  { unfold Scaler.fit. cbn [Scaler.scale_].
    replace (Scaler.variance [2; 2; 2]%R) with 0%R; [apply sqrt_0|].
    unfold Scaler.variance, Scaler.mean. simpl. field. }
  split; [exact Hs|]. unfold Scaler.transform.
  destruct (Req_dec_T (Scaler.scale_ (Scaler.fit [2; 2; 2]%R)) 0%R);
    [reflexivity|contradiction].
Qed.

(* ================================================================= *)
(** * The stratified split *)

Section StratifiedFacts.

Variable Row : Type.
Variable strata_column : Row -> Z.
Implicit Types data train test : DataFrame Row.

Lemma filter_all (A : Type) (g : A -> bool) (l : list A) :
  (forall x, In x l -> g x = true) -> filter g l = l.
Proof.
  induction l as [|x l IH]; intros H; simpl; [reflexivity|].
  rewrite (H x) by (left; reflexivity).
  rewrite IH; [reflexivity|]. intros y Hy. apply H. right. exact Hy.
Qed.

Lemma filter_none (A : Type) (g : A -> bool) (l : list A) :
  (forall x, In x l -> g x = false) -> filter g l = [].
Proof.
  induction l as [|x l IH]; intros H; simpl; [reflexivity|].
  rewrite (H x) by (left; reflexivity).
  apply IH. intros y Hy. apply H. right. exact Hy.
Qed.






End StratifiedFacts.





Section StratifiedSplit.

Variable Row : Type.
Variable strata_column : Row -> Z.
Variable draw : Z -> list nat.
Variable data : DataFrame Row.
Variable test_ratio : Q.

Hypothesis ratio_lo : (0 <= test_ratio)%Q.
Hypothesis ratio_hi : (test_ratio <= 1)%Q.

(** The test rows the split takes from stratum [s]. *)
Let size (s : Z) : nat :=
  Z.to_nat (Qfloor (inject_Z (Z.of_nat (length (stratum strata_column data s)))
                    * test_ratio)).









End StratifiedSplit.




(** A table with 80 rows of stratum 1 and 20 rows of stratum 2, split at
    ratio 0.2 with the positions drawn in order: 16 and 4 test rows. *)
Example stratified_80_20 :
  let data : DataFrame Z :=
    map (fun i => (Z.of_nat i, if (i <? 80)%nat then 1 else 2)) (seq 0 100) in
  let draw := fun s : Z => if s =? 1 then seq 0 80 else seq 0 20 in
  option_map (fun p => (length (stratum (fun r => r) (snd p) 1),
                        length (stratum (fun r => r) (snd p) 2),
                        length (snd p), length (fst p)))
             (stratified_split (fun r => r) draw data (1 # 5))
  = Some (16, 4, 20, 80)%nat.
Proof. vm_compute. reflexivity. Qed.

(* ================================================================= *)
(** * More on the random split: the sizes at the edges *)

Section RandomSplitEdges.

Variable Row : Type.
Implicit Types data train test : DataFrame Row.

Lemma rows_at_nil data out : rows_at data [] out -> out = [].
Proof. intros H. inversion H. reflexivity. Qed.

Lemma firstn_step (B : Type) (n1 n2 : nat) (l : list B) :
  (n1 <= n2)%nat ->
  firstn n2 l = firstn n1 l ++ firstn (n2 - n1) (skipn n1 l).
Proof.
  revert n1 n2. induction l as [|x l IH]; intros n1 n2 H.
  - rewrite !firstn_nil, skipn_nil, firstn_nil. reflexivity.
  - destruct n1 as [|n1].
    + simpl. rewrite Nat.sub_0_r. reflexivity.
    + destruct n2 as [|n2]; [lia|]. simpl. f_equal. apply IH. lia.
Qed.

Lemma skipn_step (B : Type) (n1 n2 : nat) (l : list B) :
  (n1 <= n2)%nat ->
  skipn n1 l = firstn (n2 - n1) (skipn n1 l) ++ skipn n2 l.
Proof.
  intros H. replace n2 with ((n2 - n1) + n1)%nat at 2 by lia.
  rewrite <- skipn_skipn. symmetry. apply firstn_skipn.
Qed.

(** A split that returns holds every row once. *)
Lemma split_train_test_Permutation (shuffled : list nat) data
    (test_ratio : Float64.float64) train test :
  Permutation shuffled (seq 0 (length data)) ->
  split_train_test shuffled data test_ratio = Some (train, test) ->
  Permutation (train ++ test) data.
Proof.
  intros Hp Hs.
  destruct (Py.int (Float64.mul (Float64.of_Z (Z.of_nat (length data)))
                      test_ratio)) as [k|] eqn:Hk.
  - destruct (@split_train_test_at Row shuffled data test_ratio k _ Hp Hk
                eq_refl) as (train' & test' & Hs' & _ & _ & Hperm).
    rewrite Hs in Hs'. injection Hs' as <- <-. exact Hperm.
  - rewrite (split_train_test_raises shuffled data test_ratio Hk) in Hs.
    discriminate.
Qed.

(** The cut for a size that is not negative. *)
Lemma split_train_test_size (shuffled : list nat) data
    (test_ratio : Float64.float64) (k : Z) :
  Permutation shuffled (seq 0 (length data)) ->
  Py.int (Float64.mul (Float64.of_Z (Z.of_nat (length data))) test_ratio)
  = Some k ->
  0 <= k ->
  exists train test,
    split_train_test shuffled data test_ratio = Some (train, test) /\
    iloc data (firstn (Z.to_nat k) shuffled) = Some test /\
    iloc data (skipn (Z.to_nat k) shuffled) = Some train.
Proof.
  intros Hp Hk H0.
  destruct (@split_train_test_at Row shuffled data test_ratio k
              (Nat.min (Z.to_nat k) (length shuffled)) Hp Hk)
    as (train & test & Hs & Hte & Htr & _).
  { apply slice_bound_nonneg. exact H0. }
  rewrite firstn_clamp in Hte. rewrite skipn_clamp in Htr.
  exists train, test. auto.
Qed.

End RandomSplitEdges.

(** X1.  The random split at the two ends of the computed size
    [test_set_size = int(len(data) * test_ratio)].  When the size is the
    number of rows or more, the slice bound is clamped to the table: the
    test table is every row, in the order of the permutation, and the
    train table is empty.  When the size is 0, the test table is empty
    and the train table is every row. *)
Theorem random_split_extremes :
  forall (Row : Type) (data : DataFrame Row) (test_ratio : Float64.float64)
         (shuffled : list nat) (test_set_size : Z),
    Permutation shuffled (seq 0 (length data)) ->
    Py.int (Float64.mul (Float64.of_Z (Z.of_nat (length data))) test_ratio)
    = Some test_set_size ->
    (Z.of_nat (length data) <= test_set_size ->
     exists test,
       split_train_test shuffled data test_ratio = Some ([], test) /\
       rows_at data shuffled test) /\
    (test_set_size = 0 ->
     exists train,
       split_train_test shuffled data test_ratio = Some (train, []) /\
       rows_at data shuffled train).
Proof.
  intros Row data test_ratio shuffled k Hp Hk.
  assert (Hlen : length shuffled = length data).
  { rewrite (Permutation_length Hp). apply length_seq. }
  split.
  - intros Hbig.
    destruct (@split_train_test_size Row shuffled data test_ratio k Hp Hk)
      as (train & test & Hs & Hte & Htr); [lia|].
    rewrite firstn_all2 in Hte by lia. rewrite skipn_all2 in Htr by lia.
    apply iloc_rows_at in Hte, Htr. apply rows_at_nil in Htr. subst train.
    exists test. split; assumption.
  - intros ->.
    destruct (@split_train_test_size Row shuffled data test_ratio 0 Hp Hk)
      as (train & test & Hs & Hte & Htr); [lia|].
    simpl in Hte. injection Hte as <-. simpl in Htr.
    apply iloc_rows_at in Htr.
    exists train. split; assumption.
Qed.

(** Three rows: at the ratio 1.5 the size is 4, and at the ratio 0.2 it
    is 0. *)
Lemma random_split_extremes_witness :
  let data : DataFrame Z := [(0, 10); (1, 11); (2, 12)] in
  let big := Float64.div (Float64.of_Z 3) (Float64.of_Z 2) in
  let small := Float64.div (Float64.of_Z 1) (Float64.of_Z 5) in
  Permutation [2; 0; 1]%nat (seq 0 (length data)) /\
  Py.int (Float64.mul (Float64.of_Z (Z.of_nat (length data))) big) = Some 4 /\
  Py.int (Float64.mul (Float64.of_Z (Z.of_nat (length data))) small)
  = Some 0 /\
  (exists test,
      split_train_test [2; 0; 1]%nat data big = Some ([], test) /\
      rows_at data [2; 0; 1]%nat test) /\
  (exists train,
      split_train_test [2; 0; 1]%nat data small = Some (train, []) /\
      rows_at data [2; 0; 1]%nat train).
Proof.
  intros data big small.
  assert (Hp : Permutation [2; 0; 1]%nat (seq 0 (length data))).
  { simpl. apply Permutation_sym.
    apply (@Permutation_cons_app nat _ [2%nat] [1%nat] 0%nat).
    apply perm_swap. }
  assert (Hbig : Py.int (Float64.mul (Float64.of_Z (Z.of_nat (length data)))
                           big) = Some 4) by reflexivity.
  assert (Hsmall : Py.int (Float64.mul (Float64.of_Z (Z.of_nat (length data)))
                             small) = Some 0) by reflexivity.
  split; [exact Hp|]. split; [exact Hbig|]. split; [exact Hsmall|]. split.
  - apply (proj1 (@random_split_extremes Z data big _ 4 Hp Hbig)).
    simpl. lia.
  - exact (proj2 (@random_split_extremes Z data small _ 0 Hp Hsmall) eq_refl).
Defined.

(** X2.  A negative ratio is not refused.  [int] truncates the negative
    product toward zero, and the negative slice bound counts from the end
    of the permutation: when the computed size is -1 or less, the train
    table is the rows at the last [- test_set_size] positions (at most
    N) and the test table is all the rows before them. *)
Theorem random_split_negative_ratio :
  forall (Row : Type) (data : DataFrame Row) (test_ratio : Float64.float64)
         (shuffled : list nat) (test_set_size : Z),
    Permutation shuffled (seq 0 (length data)) ->
    Py.int (Float64.mul (Float64.of_Z (Z.of_nat (length data))) test_ratio)
    = Some test_set_size ->
    test_set_size <= - 1 ->
    let k := Z.to_nat (- test_set_size) in
    exists train test,
      split_train_test shuffled data test_ratio = Some (train, test) /\
      rows_at data (firstn (length data - k) shuffled) test /\
      rows_at data (skipn (length data - k) shuffled) train /\
      length train = Nat.min k (length data).
Proof.
  intros Row data test_ratio shuffled size Hp Hsize Hneg k.
  assert (Hlen : length shuffled = length data).
  { rewrite (Permutation_length Hp). apply length_seq. }
  destruct (@split_train_test_at Row shuffled data test_ratio size
              (length data - k)%nat Hp Hsize)
    as (train & test & Hs & Hte & Htr & Hperm).
  { unfold Py.slice_bound.
    destruct (size <? 0) eqn:E; [|apply Z.ltb_ge in E; lia].
    rewrite Hlen. unfold k. lia. }
  exists train, test. apply iloc_rows_at in Hte, Htr.
  split; [exact Hs|]. split; [exact Hte|]. split; [exact Htr|].
  rewrite <- (Forall2_length Htr), length_skipn, Hlen. unfold k. lia.
Qed.

(** Five rows at the ratio -0.6: the binary64 product is -3.0, and the
    train table is the rows at the last three positions. *)
Lemma random_split_negative_ratio_witness :
  let data : DataFrame Z := [(0, 10); (1, 11); (2, 12); (3, 13); (4, 14)] in
  let ratio := Float64.opp (Float64.div (Float64.of_Z 3) (Float64.of_Z 5)) in
  Permutation [2; 0; 1; 3; 4]%nat (seq 0 (length data)) /\
  Py.int (Float64.mul (Float64.of_Z (Z.of_nat (length data))) ratio)
  = Some (- 3) /\
  exists train test,
    split_train_test [2; 0; 1; 3; 4]%nat data ratio = Some (train, test) /\
    rows_at data [2; 0]%nat test /\
    rows_at data [1; 3; 4]%nat train /\
    length train = 3%nat.
Proof.
  intros data ratio.
  assert (Hp : Permutation [2; 0; 1; 3; 4]%nat (seq 0 (length data))).
  { simpl. apply Permutation_sym.
    apply (@Permutation_cons_app nat _ [2%nat] [1; 3; 4]%nat 0%nat).
    apply (@Permutation_cons_app nat _ [2%nat] [3; 4]%nat 1%nat).
    apply Permutation_refl. }
  assert (Hsize : Py.int (Float64.mul (Float64.of_Z (Z.of_nat (length data)))
                            ratio) = Some (- 3)) by reflexivity.
  split; [exact Hp|]. split; [exact Hsize|].
  apply (@random_split_negative_ratio Z data ratio _ (- 3) Hp Hsize). lia.
Defined.

(** X3.  With the permutation fixed, a larger computed size only moves
    rows from the train table to the test table: for two ratios whose
    sizes are [0 <= k1 <= k2], the test table at the first is the
    beginning of the test table at the second, and the rows added to it
    are the beginning of the train table at the first. *)
Theorem random_split_grows_with_ratio :
  forall (Row : Type) (data : DataFrame Row) (r1 r2 : Float64.float64)
         (shuffled : list nat) (k1 k2 : Z),
    Permutation shuffled (seq 0 (length data)) ->
    Py.int (Float64.mul (Float64.of_Z (Z.of_nat (length data))) r1)
    = Some k1 ->
    Py.int (Float64.mul (Float64.of_Z (Z.of_nat (length data))) r2)
    = Some k2 ->
    0 <= k1 -> k1 <= k2 ->
    exists train1 test1 train2 test2 moved,
      split_train_test shuffled data r1 = Some (train1, test1) /\
      split_train_test shuffled data r2 = Some (train2, test2) /\
      test2 = test1 ++ moved /\
      train1 = moved ++ train2.
Proof.
  intros Row data r1 r2 shuffled k1 k2 Hp Hk1 Hk2 H0 H12.
  destruct (@split_train_test_size Row shuffled data r1 k1 Hp Hk1 H0)
    as (train1 & test1 & Hs1 & Hte1 & Htr1).
  destruct (@split_train_test_size Row shuffled data r2 k2 Hp Hk2)
    as (train2 & test2 & Hs2 & Hte2 & Htr2); [lia|].
  assert (Hk : (Z.to_nat k1 <= Z.to_nat k2)%nat) by lia.
  rewrite (firstn_step shuffled Hk) in Hte2.
  rewrite (skipn_step shuffled Hk) in Htr1.
  apply mapM_app in Hte2. destruct Hte2 as (a & moved & Ha & Hm & ->).
  apply mapM_app in Htr1. destruct Htr1 as (moved' & b & Hm' & Hb & ->).
  unfold iloc in Hte1, Htr2.
  assert (a = test1) by congruence.
  assert (moved' = moved) by congruence.
  assert (b = train2) by congruence. subst.
  exists (moved ++ train2), test1, train2, (test1 ++ moved), moved.
  auto.
Qed.

(** Five rows at the ratios 0.2 and 0.6: the sizes are 1 and 3. *)
Lemma random_split_grows_with_ratio_witness :
  let data : DataFrame Z := [(0, 10); (1, 11); (2, 12); (3, 13); (4, 14)] in
  let r1 := Float64.div (Float64.of_Z 1) (Float64.of_Z 5) in
  let r2 := Float64.div (Float64.of_Z 3) (Float64.of_Z 5) in
  Permutation [2; 0; 1; 3; 4]%nat (seq 0 (length data)) /\
  Py.int (Float64.mul (Float64.of_Z (Z.of_nat (length data))) r1) = Some 1 /\
  Py.int (Float64.mul (Float64.of_Z (Z.of_nat (length data))) r2) = Some 3 /\
  exists train1 test1 train2 test2 moved,
    split_train_test [2; 0; 1; 3; 4]%nat data r1 = Some (train1, test1) /\
    split_train_test [2; 0; 1; 3; 4]%nat data r2 = Some (train2, test2) /\
    test2 = test1 ++ moved /\
    train1 = moved ++ train2.
Proof.
  intros data r1 r2.
  assert (Hp : Permutation [2; 0; 1; 3; 4]%nat (seq 0 (length data))).
  { simpl. apply Permutation_sym.
    apply (@Permutation_cons_app nat _ [2%nat] [1; 3; 4]%nat 0%nat).
    apply (@Permutation_cons_app nat _ [2%nat] [3; 4]%nat 1%nat).
    apply Permutation_refl. }
  assert (Hk1 : Py.int (Float64.mul (Float64.of_Z (Z.of_nat (length data)))
                          r1) = Some 1) by reflexivity.
  assert (Hk2 : Py.int (Float64.mul (Float64.of_Z (Z.of_nat (length data)))
                          r2) = Some 3) by reflexivity.
  split; [exact Hp|]. split; [exact Hk1|]. split; [exact Hk2|].
  apply (@random_split_grows_with_ratio Z data r1 r2 _ 1 3 Hp Hk1 Hk2); lia.
Defined.

(* ================================================================= *)
(** * More on the hash-based split *)

Section HashSplitMore.

Variable Row : Type.
Variable crc32 : list Z -> Z.
Variable id_column : Row -> Z.
Implicit Types data train test : DataFrame Row.

Lemma test_set_check_Some (identifier : Z) (test_ratio : Q) (b : bool) :
  test_set_check crc32 identifier test_ratio = Some b ->
  Numpy64.in_int64 identifier = true.
Proof.
  intros H. destruct (Numpy64.in_int64 identifier) eqn:E; [reflexivity|].
  rewrite (test_set_check_overflow crc32 identifier test_ratio E) in H.
  discriminate.
Qed.

Lemma split_train_test_by_id_fit data (test_ratio : Q)
    (p : DataFrame Row * DataFrame Row) :
  split_train_test_by_id crc32 data test_ratio id_column = Some p ->
  ids_fit id_column data.
Proof.
  unfold split_train_test_by_id. intros H.
  destruct (Err.mapM (fun id_ => test_set_check crc32 id_ test_ratio)
              (map (fun r => id_column (snd r)) data)) as [mask|] eqn:E;
    [clear H|discriminate].
  revert mask E. induction data as [|r data IH]; intros mask E.
  - constructor.
  - simpl in E.
    destruct (test_set_check crc32 (id_column (snd r)) test_ratio) as [b|] eqn:Eb;
      [|discriminate].
    destruct (Err.mapM (fun id_ => test_set_check crc32 id_ test_ratio)
                (map (fun r => id_column (snd r)) data)) as [mask'|] eqn:E';
      [|discriminate].
    constructor.
    + eapply test_set_check_Some. exact Eb.
    + eapply IH. reflexivity.
Qed.

Lemma ids_fit_filter (g : Z * Row -> bool) data :
  ids_fit id_column data -> ids_fit id_column (filter g data).
Proof.
  unfold ids_fit. rewrite !Forall_forall. intros H r Hr.
  apply filter_In in Hr. apply H. tauto.
Qed.

Lemma in_test_monotone (r1 r2 : Q) (identifier : Z) :
  (r1 <= r2)%Q ->
  in_test crc32 r1 identifier = true -> in_test crc32 r2 identifier = true.
Proof.
  unfold in_test. rewrite !ltb_lt. intros H12 H.
  eapply Qlt_le_trans; [exact H|].
  apply Qmult_le_compat_r; [exact H12|]. unfold Qle. simpl. lia.
Qed.

Lemma in_test_ratio_nonpositive (test_ratio : Q) (identifier : Z) :
  (test_ratio <= 0)%Q -> in_test crc32 test_ratio identifier = false.
Proof.
  intros H. destruct (in_test crc32 test_ratio identifier) eqn:E; [|reflexivity].
  unfold in_test in E. apply ltb_lt in E. exfalso.
  pose proof (checksum_range crc32 identifier) as [Hc _].
  assert (Hq : (0 <= inject_Z (checksum crc32 identifier))%Q).
  { rewrite <- (Zle_Qle 0). exact Hc. }
  assert (Hz : (test_ratio * inject_Z (2 ^ 32) <= 0 * inject_Z (2 ^ 32))%Q).
  { apply Qmult_le_compat_r; [exact H|]. unfold Qle. simpl. lia. }
  rewrite Qmult_0_l in Hz.
  apply (Qlt_irrefl 0).
  eapply Qle_lt_trans; [exact Hq|]. eapply Qlt_le_trans; [exact E|exact Hz].
Qed.

Lemma in_test_ratio_one (test_ratio : Q) (identifier : Z) :
  (1 <= test_ratio)%Q -> in_test crc32 test_ratio identifier = true.
Proof.
  intros H. unfold in_test. apply ltb_lt.
  pose proof (checksum_range crc32 identifier) as [_ Hc].
  eapply Qlt_le_trans.
  - rewrite <- Zlt_Qlt. exact Hc.
  - rewrite <- (Qmult_1_l (inject_Z (2 ^ 32))) at 1.
    apply Qmult_le_compat_r; [exact H|]. unfold Qle. simpl. lia.
Qed.

End HashSplitMore.

Lemma filter_subseq_impl (A : Type) (g1 g2 : A -> bool) (l : list A) :
  (forall x, g1 x = true -> g2 x = true) ->
  subseq (filter g1 l) (filter g2 l).
Proof.
  intros H. induction l as [|x l IH]; simpl; [constructor|].
  destruct (g1 x) eqn:E1.
  - rewrite (H x E1). apply subseq_keep. exact IH.
  - destruct (g2 x); [apply subseq_skip|]; exact IH.
Qed.

Lemma filter_twice (A : Type) (g : A -> bool) (l : list A) :
  filter g (filter g l) = filter g l /\
  filter (fun x => negb (g x)) (filter g l) = [].
Proof.
  split.
  - apply filter_all. intros x Hx. apply filter_In in Hx. tauto.
  - apply filter_none. intros x Hx. apply filter_In in Hx.
    destruct Hx as [_ ->]. reflexivity.
Qed.

(** X4.  The hash-based split returns exactly when every identifier fits
    [np.int64]: one identifier out of range makes the whole call raise,
    and no partial split is returned. *)
Theorem hash_split_returns_iff_ids_fit :
  forall (Row : Type) (crc32 : list Z -> Z) (data : DataFrame Row)
         (test_ratio : Q) (id_column : Row -> Z),
    ((exists train test,
         split_train_test_by_id crc32 data test_ratio id_column
         = Some (train, test)) <->
     ids_fit id_column data) /\
    (forall r, In r data ->
       Numpy64.in_int64 (id_column (snd r)) = false ->
       split_train_test_by_id crc32 data test_ratio id_column = None).
Proof.
  intros Row crc32 data test_ratio id_column.
  assert (Hiff : (exists train test,
                     split_train_test_by_id crc32 data test_ratio id_column
                     = Some (train, test)) <-> ids_fit id_column data).
  { split.
    - intros (train & test & H).
      eapply split_train_test_by_id_fit. exact H.
    - intros H. rewrite (split_train_test_by_id_filter crc32 test_ratio H).
      do 2 eexists. reflexivity. }
  split; [exact Hiff|].
  intros r Hr Hbad.
  destruct (split_train_test_by_id crc32 data test_ratio id_column)
    as [[train test]|] eqn:E; [|reflexivity].
  assert (Hfit : ids_fit id_column data).
  { apply Hiff. exists train, test. reflexivity. }
  unfold ids_fit in Hfit. rewrite Forall_forall in Hfit.
  rewrite (Hfit r Hr) in Hbad. discriminate.
Qed.

Lemma hash_split_returns_iff_ids_fit_witness :
  let data : DataFrame Z := [(0, 5); (1, 2 ^ 63); (2, 7)] in
  In (1, 2 ^ 63) data /\
  Numpy64.in_int64 (2 ^ 63) = false /\
  split_train_test_by_id Zlib.crc32 data (1 # 5) (fun r => r) = None.
Proof.
  intros data.
  assert (Hin : In (1, 2 ^ 63) data) by (simpl; tauto).
  assert (Hbad : Numpy64.in_int64 (2 ^ 63) = false) by reflexivity.
  split; [exact Hin|]. split; [exact Hbad|].
  exact (proj2 (hash_split_returns_iff_ids_fit Zlib.crc32 data (1 # 5)
                  (fun r => r)) (1, 2 ^ 63) Hin Hbad).
Defined.

(** X5.  Raising the ratio of the hash-based split never moves a row out
    of the test table: for [r1 <= r2] the test table at [r1] is the test
    table at [r2] with some rows left out, and the train table at [r2] is
    the train table at [r1] with some rows left out. *)
Theorem hash_split_grows_with_ratio :
  forall (Row : Type) (crc32 : list Z -> Z) (data : DataFrame Row)
         (r1 r2 : Q) (id_column : Row -> Z),
    (r1 <= r2)%Q ->
    ids_fit id_column data ->
    exists train1 test1 train2 test2,
      split_train_test_by_id crc32 data r1 id_column = Some (train1, test1) /\
      split_train_test_by_id crc32 data r2 id_column = Some (train2, test2) /\
      subseq test1 test2 /\
      subseq train2 train1.
Proof.
  intros Row crc32 data r1 r2 id_column H12 Hfit.
  rewrite (split_train_test_by_id_filter crc32 r1 Hfit).
  rewrite (split_train_test_by_id_filter crc32 r2 Hfit).
  do 4 eexists. split; [reflexivity|]. split; [reflexivity|].
  split; apply filter_subseq_impl; intros r Hr.
  - eapply in_test_monotone; eassumption.
  - apply negb_true_iff in Hr. apply negb_true_iff.
    destruct (in_test crc32 r1 (id_column (snd r))) eqn:E; [|reflexivity].
    rewrite (in_test_monotone crc32 _ H12 E) in Hr. discriminate.
Qed.

Lemma hash_split_grows_with_ratio_witness :
  let data : DataFrame Z := [(0, 0); (1, 1); (2, 2); (3, 3); (4, 4); (5, 5)] in
  (1 # 5 <= 1 # 2)%Q /\
  ids_fit (fun r => r) data /\
  exists train1 test1 train2 test2,
    split_train_test_by_id Zlib.crc32 data (1 # 5) (fun r => r)
    = Some (train1, test1) /\
    split_train_test_by_id Zlib.crc32 data (1 # 2) (fun r => r)
    = Some (train2, test2) /\
    subseq test1 test2 /\
    subseq train2 train1.
Proof.
  intros data.
  assert (H12 : (1 # 5 <= 1 # 2)%Q) by (unfold Qle; simpl; lia).
  assert (Hf : ids_fit (fun r : Z => r) data) by (repeat constructor).
  split; [exact H12|]. split; [exact Hf|].
  exact (@hash_split_grows_with_ratio Z Zlib.crc32 data _ _ _ H12 Hf).
Defined.

(** X6.  The hash-based split at the two ends of the ratio: with a ratio
    of 0 or less no checksum is below the threshold, so the test table is
    empty and the train table is the whole source; with a ratio of 1 or
    more every 32-bit checksum is below it, so the test table is the
    whole source and the train table is empty. *)
Theorem hash_split_extremes :
  forall (Row : Type) (crc32 : list Z -> Z) (data : DataFrame Row)
         (test_ratio : Q) (id_column : Row -> Z),
    ids_fit id_column data ->
    ((test_ratio <= 0)%Q ->
     split_train_test_by_id crc32 data test_ratio id_column = Some (data, [])) /\
    ((1 <= test_ratio)%Q ->
     split_train_test_by_id crc32 data test_ratio id_column = Some ([], data)).
Proof.
  intros Row crc32 data test_ratio id_column Hfit.
  rewrite (split_train_test_by_id_filter crc32 test_ratio Hfit).
  split; intros H.
  - rewrite filter_all, filter_none; [reflexivity| |]; intros r _.
    + apply in_test_ratio_nonpositive. exact H.
    + rewrite in_test_ratio_nonpositive by exact H. reflexivity.
  - rewrite filter_none, filter_all; [reflexivity| |]; intros r _.
    + apply in_test_ratio_one. exact H.
    + rewrite in_test_ratio_one by exact H. reflexivity.
Qed.

Lemma hash_split_extremes_witness :
  let data : DataFrame Z := [(0, 0); (1, 1); (2, 2)] in
  ids_fit (fun r => r) data /\
  (0 <= 0)%Q /\
  (1 <= 1)%Q /\
  split_train_test_by_id Zlib.crc32 data 0 (fun r => r) = Some (data, []) /\
  split_train_test_by_id Zlib.crc32 data 1 (fun r => r) = Some ([], data).
Proof.
  intros data.
  assert (Hf : ids_fit (fun r : Z => r) data) by (repeat constructor).
  assert (H0 : (0 <= 0)%Q) by apply Qle_refl.
  assert (H1 : (1 <= 1)%Q) by apply Qle_refl.
  split; [exact Hf|]. split; [exact H0|]. split; [exact H1|]. split.
  - exact (proj1 (@hash_split_extremes Z Zlib.crc32 data 0 _ Hf) H0).
  - exact (proj2 (@hash_split_extremes Z Zlib.crc32 data 1 _ Hf) H1).
Defined.

(** X7.  The hash-based split works row by row: splitting a table that
    is one table followed by another gives the two train tables one after
    the other and the two test tables one after the other, and it raises
    when either part does.  Rows appended to a table never change the
    side of the rows already there. *)
Theorem hash_split_of_appended_tables :
  forall (Row : Type) (crc32 : list Z -> Z) (data more : DataFrame Row)
         (test_ratio : Q) (id_column : Row -> Z),
    split_train_test_by_id crc32 (data ++ more) test_ratio id_column =
    match split_train_test_by_id crc32 data test_ratio id_column,
          split_train_test_by_id crc32 more test_ratio id_column with
    | Some (train1, test1), Some (train2, test2) =>
        Some (train1 ++ train2, test1 ++ test2)
    | _, _ => None
    end.
Proof.
  intros Row crc32 data more test_ratio id_column.
  destruct (split_train_test_by_id crc32 (data ++ more) test_ratio id_column)
    as [p|] eqn:E.
  - pose proof (split_train_test_by_id_fit _ _ _ _ E) as Hfit.
    unfold ids_fit in Hfit. apply Forall_app in Hfit. destruct Hfit as [H1 H2].
    rewrite <- E.
    rewrite (split_train_test_by_id_filter crc32 test_ratio H1).
    rewrite (split_train_test_by_id_filter crc32 test_ratio H2).
    rewrite (split_train_test_by_id_filter crc32 test_ratio
               (proj2 (Forall_app _ _ _) (conj H1 H2))).
    rewrite !filter_app. reflexivity.
  - destruct (split_train_test_by_id crc32 data test_ratio id_column)
      as [[train1 test1]|] eqn:E1; [|reflexivity].
    destruct (split_train_test_by_id crc32 more test_ratio id_column)
      as [[train2 test2]|] eqn:E2; [|reflexivity].
    pose proof (split_train_test_by_id_fit _ _ _ _ E1) as H1.
    pose proof (split_train_test_by_id_fit _ _ _ _ E2) as H2.
    rewrite (split_train_test_by_id_filter crc32 test_ratio
               (proj2 (Forall_app _ _ _) (conj H1 H2))) in E.
    discriminate.
Qed.

(** X8.  Splitting an output of the hash-based split again, with the same
    ratio and identifier column, changes nothing: the test table goes
    whole to the test side and the train table whole to the train side. *)
Theorem hash_split_of_its_outputs :
  forall (Row : Type) (crc32 : list Z -> Z) (data train test : DataFrame Row)
         (test_ratio : Q) (id_column : Row -> Z),
    split_train_test_by_id crc32 data test_ratio id_column = Some (train, test) ->
    split_train_test_by_id crc32 test test_ratio id_column = Some ([], test) /\
    split_train_test_by_id crc32 train test_ratio id_column = Some (train, []).
Proof.
  intros Row crc32 data train test test_ratio id_column H.
  pose proof (split_train_test_by_id_fit _ _ _ _ H) as Hfit.
  rewrite (split_train_test_by_id_filter crc32 test_ratio Hfit) in H.
  injection H as <- <-.
  set (g := fun r : Z * Row => in_test crc32 test_ratio (id_column (snd r))).
  set (h := fun r : Z * Row =>
              negb (in_test crc32 test_ratio (id_column (snd r)))).
  split.
  - rewrite (split_train_test_by_id_filter crc32 test_ratio
               (ids_fit_filter g Hfit)).
    change (Some (filter (fun r => negb (g r)) (filter g data),
                  filter g (filter g data)) = Some ([], filter g data)).
    destruct (filter_twice g data) as [-> ->]. reflexivity.
  - rewrite (split_train_test_by_id_filter crc32 test_ratio
               (ids_fit_filter h Hfit)).
    change (Some (filter h (filter h data), filter g (filter h data))
            = Some (filter h data, [])).
    destruct (filter_twice h data) as [-> _].
    replace (filter g (filter h data)) with (@nil (Z * Row)); [reflexivity|].
    + symmetry. apply filter_none. intros r Hr.
      apply filter_In in Hr. destruct Hr as [_ Hr]. unfold h in Hr.
      apply negb_true_iff in Hr. exact Hr.
Qed.

Lemma hash_split_of_its_outputs_witness :
  let data : DataFrame Z := [(0, 0); (1, 1); (2, 2); (3, 3); (4, 4); (5, 5)] in
  let train : DataFrame Z := [(0, 0); (1, 1); (3, 3); (4, 4)] in
  let test : DataFrame Z := [(2, 2); (5, 5)] in
  split_train_test_by_id Zlib.crc32 data (1 # 5) (fun r => r)
  = Some (train, test) /\
  split_train_test_by_id Zlib.crc32 test (1 # 5) (fun r => r)
  = Some ([], test) /\
  split_train_test_by_id Zlib.crc32 train (1 # 5) (fun r => r)
  = Some (train, []).
Proof.
  intros data train test.
  assert (H : split_train_test_by_id Zlib.crc32 data (1 # 5) (fun r => r)
              = Some (train, test)) by (vm_compute; reflexivity).
  split; [exact H|].
  exact (@hash_split_of_its_outputs Z Zlib.crc32 data train test _ _ H).
Defined.

(** X9.  [test_set_check] accepts the checksums of an initial segment:
    an identifier that fits is accepted exactly when its checksum is
    below [ceil (ratio * 2^32)], and for a ratio between 0 and 1 that
    bound lies between 0 and [2^32], so that many of the [2^32] checksum
    values are accepted. *)
Theorem test_set_check_threshold :
  forall (crc32 : list Z -> Z) (identifier : Z) (test_ratio : Q),
    Numpy64.in_int64 identifier = true ->
    (test_set_check crc32 identifier test_ratio = Some true <->
     checksum crc32 identifier < Qceiling (test_ratio * inject_Z (2 ^ 32))) /\
    ((0 <= test_ratio)%Q -> (test_ratio <= 1)%Q ->
     0 <= Qceiling (test_ratio * inject_Z (2 ^ 32)) <= 2 ^ 32).
Proof.
  intros crc32 identifier test_ratio Hfit.
  assert (Hpos : (0 <= inject_Z (2 ^ 32))%Q) by (unfold Qle; simpl; lia).
  split.
  - rewrite (test_set_check_fit crc32 identifier test_ratio Hfit).
    unfold in_test.
    set (c := checksum crc32 identifier).
    set (x := (test_ratio * inject_Z (2 ^ 32))%Q).
    split.
    + intros H. injection H as H. apply ltb_lt in H.
      rewrite Zlt_Qlt. eapply Qlt_le_trans; [exact H|apply Qle_ceiling].
    + intros H. f_equal. apply ltb_lt.
      eapply Qle_lt_trans; [|apply Qceiling_lt].
      rewrite <- Zle_Qle. lia.
  - intros H0 H1. split.
    + rewrite <- (Qceiling_Z 0). apply Qceiling_resp_le.
      apply Qmult_le_0_compat; assumption.
    + rewrite <- (Qceiling_Z (2 ^ 32)) at 2. apply Qceiling_resp_le.
      rewrite <- (Qmult_1_l (inject_Z (2 ^ 32))) at 2.
      apply Qmult_le_compat_r; assumption.
Qed.

Lemma test_set_check_threshold_witness :
  Numpy64.in_int64 2 = true /\
  (0 <= 1 # 5)%Q /\
  (1 # 5 <= 1)%Q /\
  (test_set_check Zlib.crc32 2 (1 # 5) = Some true <->
   checksum Zlib.crc32 2 < Qceiling ((1 # 5) * inject_Z (2 ^ 32))) /\
  0 <= Qceiling ((1 # 5) * inject_Z (2 ^ 32)) <= 2 ^ 32.
Proof.
  assert (Hfit : Numpy64.in_int64 2 = true) by reflexivity.
  assert (H0 : (0 <= 1 # 5)%Q) by (unfold Qle; simpl; lia).
  assert (H1 : (1 # 5 <= 1)%Q) by (unfold Qle; simpl; lia).
  split; [exact Hfit|]. split; [exact H0|]. split; [exact H1|].
  destruct (test_set_check_threshold Zlib.crc32 2 (1 # 5) Hfit) as [Hiff Hb].
  split; [exact Hiff|exact (Hb H0 H1)].
Defined.

(** X10.  Both splitters keep the index labels distinct: when no label
    occurs twice in the source, none occurs twice in the train table nor
    in the test table. *)
Theorem splits_keep_index_distinct :
  forall (Row : Type) (crc32 : list Z -> Z) (data : DataFrame Row),
    NoDup (index data) ->
    (forall (test_ratio : Float64.float64) (shuffled : list nat) train test,
        Permutation shuffled (seq 0 (length data)) ->
        split_train_test shuffled data test_ratio = Some (train, test) ->
        NoDup (index train) /\ NoDup (index test)) /\
    (forall (test_ratio : Q) (id_column : Row -> Z) train test,
        split_train_test_by_id crc32 data test_ratio id_column
        = Some (train, test) ->
        NoDup (index train) /\ NoDup (index test)).
Proof.
  intros Row crc32 data Hnd.
  assert (Hperm : forall train test : DataFrame Row,
             Permutation (train ++ test) data ->
             NoDup (index train) /\ NoDup (index test)).
  { intros train test Hp.
    assert (Hnd' : NoDup (index train ++ index test)).
    { unfold index. rewrite <- map_app.
      eapply Permutation_NoDup; [|exact Hnd].
      apply Permutation_map, Permutation_sym, Hp. }
    split; [eapply NoDup_app_remove_r|eapply NoDup_app_remove_l]; exact Hnd'. }
  split.
  - intros test_ratio shuffled train test Hp Hs. apply Hperm.
    exact (split_train_test_Permutation _ _ Hp Hs).
  - intros test_ratio id_column train test Hs. apply Hperm.
    pose proof (split_train_test_by_id_fit _ _ _ _ Hs) as Hfit.
    rewrite (split_train_test_by_id_filter crc32 test_ratio Hfit) in Hs.
    injection Hs as <- <-. apply filter_split_Permutation.
Qed.

Lemma splits_keep_index_distinct_witness :
  let data : DataFrame Z := [(0, 0); (1, 1); (2, 2); (3, 3)] in
  let half := Float64.div (Float64.of_Z 1) (Float64.of_Z 2) in
  NoDup (index data) /\
  Permutation [2; 0; 3; 1]%nat (seq 0 (length data)) /\
  split_train_test [2; 0; 3; 1]%nat data half
  = Some ([(3, 3); (1, 1)], [(2, 2); (0, 0)]) /\
  NoDup (index [(3, 3); (1, 1)]) /\
  NoDup (index [(2, 2); (0, 0)]).
Proof.
  intros data half.
  assert (Hnd : NoDup (index data)).
  { simpl. repeat constructor; simpl; intuition lia. }
  assert (Hp : Permutation [2; 0; 3; 1]%nat (seq 0 (length data))).
  { simpl. apply Permutation_sym.
    apply (@Permutation_cons_app nat _ [2%nat] [3; 1]%nat 0%nat).
    apply (@Permutation_cons_app nat _ [2; 3]%nat [] 1%nat). simpl.
    constructor. constructor. constructor. }
  assert (Hs : split_train_test [2; 0; 3; 1]%nat data half
               = Some ([(3, 3); (1, 1)], [(2, 2); (0, 0)])) by reflexivity.
  split; [exact Hnd|]. split; [exact Hp|]. split; [exact Hs|].
  exact (proj1 (@splits_keep_index_distinct Z Zlib.crc32 data Hnd)
           half _ _ _ Hp Hs).
Defined.

(* ================================================================= *)
(** * The split on the row index (lines 64-65) *)

Lemma combine_filter_snd (A B : Type) (g : B -> bool) (ps : list A)
    (l : list B) :
  length ps = length l ->
  map snd (filter (fun x => g (snd x)) (combine ps l)) = filter g l.
Proof.
  revert ps. induction l as [|b l IH]; intros [|p ps] H; simpl in *;
    try discriminate; try reflexivity.
  destruct (g b); simpl; rewrite IH by lia; reflexivity.
Qed.

Lemma Forall_combine_snd (A B : Type) (P : B -> Prop) (ps : list A)
    (l : list B) :
  Forall P l -> Forall (fun x => P (snd x)) (combine ps l).
Proof.
  intros H. revert ps. induction H as [|b l Hb _ IH]; intros [|p ps]; simpl;
    constructor; auto.
Qed.

Lemma combine_fst (A B : Type) (ps : list A) (l : list B) :
  length ps = length l -> map fst (combine ps l) = ps.
Proof.
  revert l. induction ps as [|p ps IH]; intros [|b l] H; simpl in *;
    try discriminate; try reflexivity.
  rewrite IH by lia. reflexivity.
Qed.

(** X11.  Using the row index as the identifier: after [reset_index] the
    split on the column [index] sends each row of the original frame to
    the test table exactly when the checksum of its original index label
    is below the threshold, whatever the new positional labels are; the
    rows come out in the frame's order, each with its original label and
    cells. *)
Theorem split_on_row_index :
  forall (Row : Type) (crc32 : list Z -> Z) (housing_df : DataFrame Row)
         (test_ratio : Q),
    Forall (fun r => Numpy64.in_int64 (fst r) = true) housing_df ->
    exists train test,
      split_train_test_by_id crc32 (reset_index housing_df) test_ratio
        (@index_column Row)
      = Some (train, test) /\
      map snd test
      = filter (fun r => in_test crc32 test_ratio (fst r)) housing_df /\
      map snd train
      = filter (fun r => negb (in_test crc32 test_ratio (fst r))) housing_df /\
      index (reset_index housing_df)
      = map Z.of_nat (seq 0 (length housing_df)).
Proof.
  intros Row crc32 housing_df test_ratio Hfit.
  assert (Hlen : length (map Z.of_nat (seq 0 (length housing_df)))
                 = length housing_df).
  { rewrite length_map, length_seq. reflexivity. }
  assert (Hfit' : ids_fit (@index_column Row) (reset_index housing_df)).
  { unfold ids_fit, reset_index, index_column.
    exact (@Forall_combine_snd Z (Z * Row)
             (fun r : Z * Row => Numpy64.in_int64 (fst r) = true) _ _ Hfit). }
  rewrite (split_train_test_by_id_filter crc32 test_ratio Hfit').
  do 2 eexists. split; [reflexivity|].
  unfold reset_index, index_column. split; [|split].
  - exact (@combine_filter_snd Z (Z * Row)
             (fun r : Z * Row => in_test crc32 test_ratio (fst r)) _ _ Hlen).
  - exact (@combine_filter_snd Z (Z * Row)
             (fun r : Z * Row => negb (in_test crc32 test_ratio (fst r)))
             _ _ Hlen).
  - unfold index. apply combine_fst. exact Hlen.
Qed.

Lemma split_on_row_index_witness :
  let housing_df : DataFrame Z :=
    [(0, 40); (1, 41); (2, 42); (3, 43); (4, 44); (5, 45)] in
  Forall (fun r => Numpy64.in_int64 (fst r) = true) housing_df /\
  exists train test,
    split_train_test_by_id Zlib.crc32 (reset_index housing_df) (1 # 5)
      (@index_column Z)
    = Some (train, test) /\
    map snd test = [(2, 42); (5, 45)] /\
    map snd train = [(0, 40); (1, 41); (3, 43); (4, 44)].
Proof.
  intros housing_df.
  assert (Hfit : Forall (fun r => Numpy64.in_int64 (fst r) = true) housing_df)
    by (repeat constructor).
  split; [exact Hfit|].
  destruct (split_on_row_index Zlib.crc32 (1 # 5) Hfit)
    as (train & test & Hs & Hte & Htr & _).
  exists train, test. split; [exact Hs|]. split.
  - rewrite Hte. vm_compute. reflexivity.
  - rewrite Htr. vm_compute. reflexivity.
Defined.

(* ================================================================= *)
(** * More on the attribute adder *)

Section AdderMore.

Variable F : Type.
Variable div : F -> F -> F.
Implicit Types X Y : ndarray F.

Lemma mapM_app_Some (A B : Type) (f : A -> option B) (l1 l2 : list A)
    (b1 b2 : list B) :
  Err.mapM f l1 = Some b1 -> Err.mapM f l2 = Some b2 ->
  Err.mapM f (l1 ++ l2) = Some (b1 ++ b2).
Proof.
  rewrite !mapM_Forall2. apply Forall2_app.
Qed.

Lemma extend_row_without_bedrooms (r : list F) :
  extend_row (total div) false r
  = option_map (@removelast F) (extend_row (total div) true r).
Proof.
  unfold extend_row, total.
  destruct (nth_error r rooms_ix) as [x3|]; [|reflexivity].
  destruct (nth_error r bedroom_ix) as [x4|]; [|reflexivity].
  destruct (nth_error r population_ix) as [x5|]; [|reflexivity].
  destruct (nth_error r households_ix) as [x6|]; [|reflexivity].
  simpl. rewrite removelast_app by discriminate. reflexivity.
Qed.

Lemma mapM_option_map (A B : Type) (f : A -> option B) (h : B -> B)
    (l : list A) (bs : list B) :
  Err.mapM f l = Some bs ->
  Err.mapM (fun a => option_map h (f a)) l = Some (map h bs).
Proof.
  revert bs. induction l as [|a l IH]; intros bs H; simpl in *.
  - injection H as <-. reflexivity.
  - destruct (f a) as [b|]; [|discriminate].
    destruct (Err.mapM f l) as [bs'|]; [|discriminate].
    injection H as <-. simpl. rewrite (IH _ eq_refl). reflexivity.
Qed.

Lemma skipn_own_length (r e : list F) : skipn (length r) (r ++ e) = e.
Proof.
  rewrite skipn_app, skipn_all, Nat.sub_diag. reflexivity.
Qed.

Lemma extend_row_longer (b : bool) (r t y : list F) :
  extend_row (total div) b r = Some y ->
  extend_row (total div) b (r ++ t) = Some ((r ++ t) ++ skipn (length r) y).
Proof.
  intros H. destruct (extend_row_cells _ _ _ H)
    as (x3 & x4 & x5 & x6 & E3 & E4 & E5 & E6 & ->).
  rewrite skipn_own_length. unfold extend_row, total.
  rewrite !nth_error_app1 by (apply nth_error_Some; congruence).
  rewrite E3, E4, E5, E6. destruct b; reflexivity.
Qed.

End AdderMore.

(** X12.  [transform] needs seven columns: on an array with fewer it
    raises, whatever [add_bedrooms_per_room] is and however many rows the
    array has (position 6 is read in both branches).  On a rectangular
    array that is wide enough it raises only when a division of two
    cells raises in some row, so never when the division never raises. *)
Theorem adder_needs_seven_columns :
  forall (F : Type) (div : F -> F -> option F)
         (self : CombinedAttributesAdder) (X : ndarray F),
    ((ncols X < 7)%nat -> transform div self X = None) /\
    (well_shaped X -> transform div self X = None ->
     (ncols X < 7)%nat \/
     Exists (row_raises div (add_bedrooms_per_room self)) (rows X)) /\
    (well_shaped X -> (forall x y, div x y <> None) ->
     transform div self X = None -> (ncols X < 7)%nat).
Proof.
  intros F div self X. split; [|split].
  - apply transform_too_narrow.
  - intros Hw Hnone.
    destruct (Nat.lt_ge_cases (ncols X) 7) as [H|H]; [left; exact H|].
    right. apply (@transform_raises F div self X Hw H). exact Hnone.
  - intros Hw Hdiv Hnone.
    destruct (Nat.lt_ge_cases (ncols X) 7) as [H|H]; [exact H|].
    destruct (@transform_never_raises F div self X Hdiv Hw H) as [Y HY].
    rewrite HY in Hnone. discriminate.
Qed.

Lemma adder_needs_seven_columns_witness :
  let X := mk_ndarray 6 [[1; 2; 3; 12; 4; 6]; [0; 0; 0; 9; 3; 6]]%Q in
  (ncols X < 7)%nat /\
  well_shaped X /\
  transform (total Qdiv) init_default X = None /\
  transform (total Qdiv) (Build_CombinedAttributesAdder false) X = None.
Proof.
  intros X.
  assert (Hn : (ncols X < 7)%nat) by (simpl; lia).
  assert (Hw : well_shaped X) by (repeat constructor).
  split; [exact Hn|]. split; [exact Hw|]. split.
  - exact (proj1 (adder_needs_seven_columns (total Qdiv) init_default X) Hn).
  - exact (proj1 (adder_needs_seven_columns (total Qdiv)
                    (Build_CombinedAttributesAdder false) X) Hn).
Defined.

(** X13.  The two settings of [add_bedrooms_per_room] agree on all they
    share: the array returned without the flag is the array returned with
    it, less its last column. *)
Theorem adder_flag_only_adds_last_column :
  forall (F : Type) (div : F -> F -> F) (X : ndarray F),
    well_shaped X ->
    (7 <= ncols X)%nat ->
    exists Y2 Y3,
      transform (total div) (Build_CombinedAttributesAdder false) X = Some Y2 /\
      transform (total div) (Build_CombinedAttributesAdder true) X = Some Y3 /\
      ncols Y3 = S (ncols Y2) /\
      rows Y2 = map (@removelast F) (rows Y3).
Proof.
  intros F div X Hw Hn.
  destruct (transform_rowwise div (Build_CombinedAttributesAdder true) Hw Hn)
    as (ys3 & H3 & E3).
  destruct (transform_rowwise div (Build_CombinedAttributesAdder false) Hw Hn)
    as (ys2 & H2 & E2).
  simpl in *. rewrite E2, E3. do 2 eexists.
  split; [reflexivity|]. split; [reflexivity|]. simpl. split; [lia|].
  pose proof (mapM_option_map _ (@removelast F) _ H3) as H.
  assert (Hext : Err.mapM (extend_row (total div) false) (rows X)
                 = Some (map (@removelast F) ys3)).
  { rewrite <- H. clear. induction (rows X) as [|r rs IH]; simpl; [reflexivity|].
    rewrite extend_row_without_bedrooms, IH. reflexivity. }
  congruence.
Qed.

Lemma adder_flag_only_adds_last_column_witness :
  let X := mk_ndarray 7 [[1; 2; 3; 12; 4; 6; 2]; [0; 0; 0; 9; 3; 6; 3]]%Q in
  well_shaped X /\
  (7 <= ncols X)%nat /\
  exists Y2 Y3,
    transform (total Qdiv) (Build_CombinedAttributesAdder false) X = Some Y2 /\
    transform (total Qdiv) (Build_CombinedAttributesAdder true) X = Some Y3 /\
    ncols Y3 = S (ncols Y2) /\
    rows Y2 = map (@removelast Q) (rows Y3).
Proof.
  intros X.
  assert (Hw : well_shaped X) by (repeat constructor).
  assert (Hn : (7 <= ncols X)%nat) by (simpl; lia).
  split; [exact Hw|]. split; [exact Hn|].
  exact (@adder_flag_only_adds_last_column Q Qdiv X Hw Hn).
Defined.

(** X14.  [transform] works row by row and keeps nothing between calls:
    transforming an array made of the rows of one array followed by the
    rows of another returns the rows of the two transformed arrays, one
    after the other. *)
Theorem adder_transforms_row_by_row :
  forall (F : Type) (div : F -> F -> F) (self : CombinedAttributesAdder)
         (n : nat) (rows1 rows2 : list (list F)),
    well_shaped (mk_ndarray n rows1) ->
    well_shaped (mk_ndarray n rows2) ->
    (7 <= n)%nat ->
    exists Y1 Y2,
      transform (total div) self (mk_ndarray n rows1) = Some Y1 /\
      transform (total div) self (mk_ndarray n rows2) = Some Y2 /\
      ncols Y1 = ncols Y2 /\
      transform (total div) self (mk_ndarray n (rows1 ++ rows2))
      = Some (mk_ndarray (ncols Y1) (rows Y1 ++ rows Y2)).
Proof.
  intros F div self n rows1 rows2 Hw1 Hw2 Hn.
  assert (Hw : well_shaped (mk_ndarray n (rows1 ++ rows2))).
  { unfold well_shaped in *. simpl in *. apply Forall_app. split; assumption. }
  destruct (@transform_rowwise F div self (mk_ndarray n rows1) Hw1 Hn)
    as (ys1 & H1 & E1).
  destruct (@transform_rowwise F div self (mk_ndarray n rows2) Hw2 Hn)
    as (ys2 & H2 & E2).
  destruct (@transform_rowwise F div self (mk_ndarray n (rows1 ++ rows2)) Hw Hn)
    as (ys & H & E).
  simpl in *. rewrite (mapM_app_Some _ _ _ H1 H2) in H. injection H as <-.
  rewrite E1, E2, E. do 2 eexists.
  split; [reflexivity|]. split; [reflexivity|]. split; reflexivity.
Qed.

Lemma adder_transforms_row_by_row_witness :
  let rows1 := [[1; 2; 3; 12; 4; 6; 2]]%Q in
  let rows2 := [[0; 0; 0; 9; 3; 6; 3]; [5; 5; 5; 8; 2; 4; 4]]%Q in
  well_shaped (mk_ndarray 7 rows1) /\
  well_shaped (mk_ndarray 7 rows2) /\
  (7 <= 7)%nat /\
  exists Y1 Y2,
    transform (total Qdiv) init_default (mk_ndarray 7 rows1) = Some Y1 /\
    transform (total Qdiv) init_default (mk_ndarray 7 rows2) = Some Y2 /\
    ncols Y1 = ncols Y2 /\
    transform (total Qdiv) init_default (mk_ndarray 7 (rows1 ++ rows2))
    = Some (mk_ndarray (ncols Y1) (rows Y1 ++ rows Y2)).
Proof.
  intros rows1 rows2.
  assert (Hw1 : well_shaped (mk_ndarray 7 rows1)) by (repeat constructor).
  assert (Hw2 : well_shaped (mk_ndarray 7 rows2)) by (repeat constructor).
  assert (Hn : (7 <= 7)%nat) by lia.
  split; [exact Hw1|]. split; [exact Hw2|]. split; [exact Hn|].
  exact (@adder_transforms_row_by_row Q Qdiv init_default 7 rows1 rows2
           Hw1 Hw2 Hn).
Defined.

(** X15.  [transform] reads the columns at positions 3, 4, 5 and 6 and no
    other: two arrays of one shape whose rows agree at these four
    positions get the same appended columns, whatever their other cells
    are. *)
Theorem adder_reads_four_columns :
  forall (F : Type) (div : F -> F -> F) (self : CombinedAttributesAdder)
         (X X' : ndarray F),
    well_shaped X -> well_shaped X' ->
    ncols X' = ncols X ->
    (7 <= ncols X)%nat ->
    Forall2 (fun r r' =>
               nth_error r rooms_ix = nth_error r' rooms_ix /\
               nth_error r bedroom_ix = nth_error r' bedroom_ix /\
               nth_error r population_ix = nth_error r' population_ix /\
               nth_error r households_ix = nth_error r' households_ix)
            (rows X) (rows X') ->
    exists Y Y',
      transform (total div) self X = Some Y /\
      transform (total div) self X' = Some Y' /\
      Forall2 (fun y y' => skipn (ncols X) y = skipn (ncols X) y')
              (rows Y) (rows Y').
Proof.
  intros F div self X X' Hw Hw' Hc Hn Hagree.
  assert (Hn' : (7 <= ncols X')%nat) by lia.
  destruct (transform_rowwise div self Hw Hn) as (ys & H & E).
  destruct (transform_rowwise div self Hw' Hn') as (ys' & H' & E').
  rewrite E, E'. do 2 eexists. split; [reflexivity|]. split; [reflexivity|].
  simpl. apply mapM_Forall2 in H, H'.
  unfold well_shaped in Hw, Hw'. rewrite Hc in Hw'.
  clear Hn Hn' Hc E E'. revert ys ys' H H' Hw Hw'.
  generalize (ncols X) as n.
  induction Hagree as [|r r' rs rs' (A3 & A4 & A5 & A6) _ IH];
    intros n ys ys' H H' Hw Hw'.
  - inversion H; inversion H'; subst. constructor.
  - inversion H as [|? y ? ys0 Hy Hys]; subst.
    inversion H' as [|? y' ? ys0' Hy' Hys']; subst.
    inversion Hw as [|? ? Hr Hrs]; subst.
    inversion Hw' as [|? ? Hr' Hrs']; subst.
    constructor; [|exact (IH _ _ _ Hys Hys' Hrs Hrs')].
    destruct (extend_row_cells _ _ _ Hy)
      as (x3 & x4 & x5 & x6 & E3 & E4 & E5 & E6 & ->).
    destruct (extend_row_cells _ _ _ Hy')
      as (z3 & z4 & z5 & z6 & G3 & G4 & G5 & G6 & ->).
    rewrite skipn_own_length. rewrite <- Hr' at 1. rewrite skipn_own_length.
    assert (x3 = z3) by congruence. assert (x4 = z4) by congruence.
    assert (x5 = z5) by congruence. assert (x6 = z6) by congruence.
    subst. reflexivity.
Qed.

Lemma adder_reads_four_columns_witness :
  let X := mk_ndarray 7 [[1; 2; 3; 12; 4; 6; 2]]%Q in
  let X' := mk_ndarray 7 [[7; 8; 9; 12; 4; 6; 2]]%Q in
  well_shaped X /\ well_shaped X' /\
  ncols X' = ncols X /\
  (7 <= ncols X)%nat /\
  exists Y Y',
    transform (total Qdiv) init_default X = Some Y /\
    transform (total Qdiv) init_default X' = Some Y' /\
    Forall2 (fun y y' => skipn (ncols X) y = skipn (ncols X) y')
            (rows Y) (rows Y').
Proof.
  intros X X'.
  assert (Hw : well_shaped X) by (repeat constructor).
  assert (Hw' : well_shaped X') by (repeat constructor).
  assert (Hc : ncols X' = ncols X) by reflexivity.
  assert (Hn : (7 <= ncols X)%nat) by (simpl; lia).
  split; [exact Hw|]. split; [exact Hw'|]. split; [exact Hc|].
  split; [exact Hn|].
  apply (@adder_reads_four_columns Q Qdiv init_default X X' Hw Hw' Hc Hn).
  repeat constructor.
Defined.

(** X16.  Applying [transform] to the array it returned appends the same
    ratios again: the second pass reads positions 3 to 6, which still
    hold the source columns, so each row of the result is the row of the
    first pass followed by the cells the second adder appends to the
    source row. *)
Theorem adder_applied_twice :
  forall (F : Type) (div : F -> F -> F) (first second : CombinedAttributesAdder)
         (X : ndarray F),
    well_shaped X ->
    (7 <= ncols X)%nat ->
    exists Y Y2 Z,
      transform (total div) first X = Some Y /\
      transform (total div) second X = Some Y2 /\
      transform (total div) second Y = Some Z /\
      ncols Z = (ncols Y + (ncols Y2 - ncols X))%nat /\
      rows Z = map (fun p => fst p ++ skipn (ncols X) (snd p))
                   (combine (rows Y) (rows Y2)).
Proof.
  intros F div first second X Hw Hn.
  destruct (transform_rows div first Hw Hn) as (Y & HY & Hc & Hrows).
  destruct (transform_rowwise div second Hw Hn) as (ys2 & H2 & E2).
  assert (HwY : well_shaped Y).
  { unfold well_shaped. rewrite Hc.
    eapply extended_row_length; [exact Hw|exact Hrows]. }
  assert (HnY : (7 <= ncols Y)%nat) by lia.
  destruct (transform_rowwise div second HwY HnY) as (zs & HZ & EZ).
  exists Y, (mk_ndarray (ncols X + if add_bedrooms_per_room second then 3 else 2)
               ys2), (mk_ndarray
                        (ncols Y + if add_bedrooms_per_room second then 3 else 2)
                        zs).
  split; [exact HY|]. split; [exact E2|]. split; [exact EZ|]. simpl.
  split; [destruct (add_bedrooms_per_room second); lia|].
  assert (Hall : Err.mapM (extend_row (total div) (add_bedrooms_per_room second)) (rows Y)
                 = Some (map (fun p => fst p ++ skipn (ncols X) (snd p))
                             (combine (rows Y) ys2))).
  { apply mapM_Forall2. apply mapM_Forall2 in H2.
    unfold well_shaped in Hw. clear HZ EZ E2 HY HwY HnY Hc.
    revert ys2 H2 Hw. generalize (ncols X) as n. clear Hn.
    induction Hrows as [|r y rs ys Hy _ IH]; intros n ys2 H2 Hw.
    - inversion H2. constructor.
    - inversion H2 as [|? y2 ? ys2' Hy2 Hys2]; subst.
      inversion Hw as [|? ? Hr Hrs]; subst. simpl.
      constructor; [|exact (IH _ _ Hys2 Hrs)].
      destruct (extended_row_cells Hy)
        as (x3 & x4 & x5 & x6 & _ & _ & _ & _ & ->).
      apply extend_row_longer. exact Hy2. }
  congruence.
Qed.

Lemma adder_applied_twice_witness :
  let X := mk_ndarray 7 [[1; 2; 3; 12; 4; 6; 2]]%Q in
  well_shaped X /\
  (7 <= ncols X)%nat /\
  exists Y Y2 Z,
    transform (total Qdiv) (Build_CombinedAttributesAdder false) X = Some Y /\
    transform (total Qdiv) init_default X = Some Y2 /\
    transform (total Qdiv) init_default Y = Some Z /\
    ncols Z = (ncols Y + (ncols Y2 - ncols X))%nat /\
    rows Z = map (fun p => fst p ++ skipn (ncols X) (snd p))
                 (combine (rows Y) (rows Y2)).
Proof.
  intros X.
  assert (Hw : well_shaped X) by (repeat constructor).
  assert (Hn : (7 <= ncols X)%nat) by (simpl; lia).
  split; [exact Hw|]. split; [exact Hn|].
  exact (@adder_applied_twice Q Qdiv (Build_CombinedAttributesAdder false)
           init_default X Hw Hn).
Defined.

(** ** Missing cells in binary64 *)

Lemma div_nan_l (x y : Float64.float64) :
  Float64.is_nan x = true -> Float64.div x y = S754_nan.
Proof.
  destruct x; try discriminate. intros _. destruct y; reflexivity.
Qed.

Lemma div_nan_r (x y : Float64.float64) :
  Float64.is_nan y = true -> Float64.div x y = S754_nan.
Proof.
  destruct y; try discriminate. intros _. destruct x; reflexivity.
Qed.

(** X17.  The ratios do not fill in missing values: a NaN cell in a
    column that a ratio reads makes that ratio NaN.  On the Series of
    lines 136-138 a district with a missing [total_bedrooms] gets a
    missing [bedrooms_per_room]; in the array returned by [transform], a
    NaN at position 3 or 6 makes the first appended cell NaN, at 5 or 6
    the second, and at 4 or 3 the third. *)
Theorem ratios_propagate_nan :
  (forall (Row : Type) (total_rooms total_bedrooms : Row -> Float64.float64)
          (housing : DataFrame Row) (r : Z * Row),
      In r housing ->
      Float64.is_nan (total_bedrooms (snd r)) = true ->
      In (fst r, S754_nan)
         (bedrooms_per_room Float64.div total_rooms total_bedrooms housing)) /\
  (forall (self : CombinedAttributesAdder) (X : ndarray Float64.float64),
      well_shaped X ->
      (7 <= ncols X)%nat ->
      exists Y,
        transform Float64.truediv self X = Some Y /\
        Forall2
          (fun r y =>
             forall j x,
               nth_error r j = Some x ->
               Float64.is_nan x = true ->
               (j = rooms_ix \/ j = households_ix ->
                nth_error y (ncols X) = Some S754_nan) /\
               (j = population_ix \/ j = households_ix ->
                nth_error y (S (ncols X)) = Some S754_nan) /\
               (add_bedrooms_per_room self = true ->
                j = bedroom_ix \/ j = rooms_ix ->
                nth_error y (S (S (ncols X))) = Some S754_nan))
          (rows X) (rows Y)).
Proof.
  split.
  - intros Row total_rooms total_bedrooms housing r Hr Hnan.
    unfold bedrooms_per_room. apply in_map_iff. exists r.
    split; [|exact Hr]. rewrite (div_nan_l _ _ Hnan). reflexivity.
  - intros self X Hw Hn.
    destruct (transform_rows Float64.div self Hw Hn) as (Y & HY & _ & Hrows).
    exists Y. split; [exact HY|].
    eapply Forall2_impl; [|exact (Forall2_with_left Hw Hrows)].
    intros r y [Hlen Hy] j x Hj Hnan. simpl in Hlen.
    destruct (extended_row_cells Hy)
      as (x3 & x4 & x5 & x6 & E3 & E4 & E5 & E6 & ->).
    unfold Float64.float64 in *. rewrite <- Hlen.
    assert (N0 : forall e, nth_error (r ++ e) (length r) = nth_error e 0).
    { intros e. rewrite nth_error_app2 by lia. rewrite Nat.sub_diag.
      reflexivity. }
    assert (N1 : forall e, nth_error (r ++ e) (S (length r)) = nth_error e 1).
    { intros e. rewrite nth_error_app2 by lia.
      replace (S (length r) - length r)%nat with 1%nat by lia. reflexivity. }
    assert (N2 : forall e, nth_error (r ++ e) (S (S (length r)))
                           = nth_error e 2).
    { intros e. rewrite nth_error_app2 by lia.
      replace (S (S (length r)) - length r)%nat with 2%nat by lia.
      reflexivity. }
    rewrite N0, N1, N2. simpl.
    split; [|split].
    + intros [-> | ->].
      * rewrite E3 in Hj. injection Hj as ->.
        rewrite (div_nan_l _ _ Hnan). reflexivity.
      * rewrite E6 in Hj. injection Hj as ->.
        rewrite (div_nan_r _ _ Hnan). reflexivity.
    + intros [-> | ->].
      * rewrite E5 in Hj. injection Hj as ->.
        rewrite (div_nan_l _ _ Hnan). reflexivity.
      * rewrite E6 in Hj. injection Hj as ->.
        rewrite (div_nan_r _ _ Hnan). reflexivity.
    + intros Hflag. rewrite Hflag. simpl. intros [-> | ->].
      * rewrite E4 in Hj. injection Hj as ->.
        rewrite (div_nan_l _ _ Hnan). reflexivity.
      * rewrite E3 in Hj. injection Hj as ->.
        rewrite (div_nan_r _ _ Hnan). reflexivity.
Qed.

Lemma ratios_propagate_nan_witness :
  let zero := S754_zero false in
  let X := mk_ndarray 7
             [[zero; zero; zero; Float64.of_Z 6; S754_nan;
               Float64.of_Z 3; Float64.of_Z 2]] in
  well_shaped X /\
  (7 <= ncols X)%nat /\
  exists Y,
    transform Float64.truediv init_default X = Some Y /\
    Forall2
      (fun r y =>
         forall j x,
           nth_error r j = Some x ->
           Float64.is_nan x = true ->
           (j = rooms_ix \/ j = households_ix ->
            nth_error y (ncols X) = Some S754_nan) /\
           (j = population_ix \/ j = households_ix ->
            nth_error y (S (ncols X)) = Some S754_nan) /\
           (add_bedrooms_per_room init_default = true ->
            j = bedroom_ix \/ j = rooms_ix ->
            nth_error y (S (S (ncols X))) = Some S754_nan))
      (rows X) (rows Y).
Proof.
  intros zero X.
  assert (Hw : well_shaped X) by (repeat constructor).
  assert (Hn : (7 <= ncols X)%nat) by (simpl; lia).
  split; [exact Hw|]. split; [exact Hn|].
  exact (proj2 ratios_propagate_nan init_default X Hw Hn).
Defined.

(** The same row, run: the missing bedrooms cell gives a missing
    [bedrooms_per_room] and leaves the other two ratios alone. *)
Example transform_missing_bedrooms :
  let zero := S754_zero false in
  let X := mk_ndarray 7
             [[zero; zero; zero; Float64.of_Z 6; S754_nan;
               Float64.of_Z 3; Float64.of_Z 2]] in
  option_map (fun Y => map (fun y => map Float64.is_nan (skipn 7 y)) (rows Y))
             (transform Float64.truediv init_default X)
  = Some [[false; false; true]].
Proof. vm_compute. reflexivity. Qed.
